(** * mqtt-rgb-dino: the dispatch pipeline of [src/main.cpp]

    A shallow embedding of the listener, the two workers, the two MQTT
    callbacks and the connection procedure of [src/main.cpp].  The program
    is sequential inside each task; what the tasks do to the outside (LED
    ring driver, semaphore, queues, MQTT client, scheduler) is recorded in
    a chronological trace of events kept in the [World]. *)

From Stdlib Require Import ZArith List Bool Lia.
From Stdlib.Strings Require Import String Byte.
Import ListNotations.
Local Open Scope Z_scope.

(** ** Build-time constants

    [SUBSCRIPTIONDATALEN] comes from the MQTT client library,
    [READ_SUBSCRIPTION_TIMEOUT] from the project's headers and
    [portTICK_PERIOD_MS] from the RTOS; none is fixed by [main.cpp], so the
    development is parametric in them. *)
Class Config := {
  SUBSCRIPTIONDATALEN : nat;
  READ_SUBSCRIPTION_TIMEOUT : Z;
  portTICK_PERIOD_MS : Z
}.

(** ** Machine integers *)

Definition wrap8 (z : Z) : Z := z mod 2 ^ 8.
Definition wrap32 (z : Z) : Z := z mod 2 ^ 32.
Definition is_uint32 (z : Z) : Prop := 0 <= z < 2 ^ 32.

(** ** C string and memory primitives on byte buffers *)

(** [memset(buf, c, n)]: the first [n] bytes become [c]. *)
Definition memset (buf : list byte) (c : byte) (n : nat) : list byte :=
  repeat c n ++ skipn n buf.

(** The [n] bytes that [strncpy(_, src, n)] writes: the bytes of [src] up to
    its first NUL, then NUL padding.  [src] is read inside its array only;
    the end of the list is read as NUL. *)
Fixpoint strncpy_src (src : list byte) (n : nat) {struct n} : list byte :=
  match n with
  | O => []
  | S n' =>
      match src with
      | [] => repeat x00 n
      | c :: src' =>
          if Byte.eqb c x00 then repeat x00 n
          else c :: strncpy_src src' n'
      end
  end.

(** [strncpy(dest, src, n)]: bytes of [dest] from index [n] on are kept. *)
Definition strncpy (dest src : list byte) (n : nat) : list byte :=
  strncpy_src src n ++ skipn n dest.

(** ** Data model *)

(** The two functions of type [void (char *, uint16_t)] that the program
    registers as subscription callbacks. *)
Inductive SubscribeCallbackBufferType : Type :=
| cb_getColor
| cb_setColor.

(** [SubscriptionAction_t]: a null [callback] is [None]. *)
Record SubscriptionAction : Type := {
  callback : option SubscribeCallbackBufferType;
  data : list byte;
  length : Z
}.

(** The fields of [Adafruit_MQTT_Subscribe] that [main.cpp] reads. *)
Record Adafruit_MQTT_Subscribe : Type := {
  callback_buffer : option SubscribeCallbackBufferType;
  lastread : list byte;
  datalen : Z
}.

Record RGB_t : Type := { rgb_r : Z; rgb_g : Z; rgb_b : Z }.

(** The subscription objects a pointer returned by [readSubscription] can
    designate: the two globals of [main.cpp], or some other object. *)
Inductive SubId : Type :=
| getColorSub
| setColorSub
| otherSub (n : nat).

Record SubPtr : Type := { sub_id : SubId; sub_obj : Adafruit_MQTT_Subscribe }.

Inductive Task : Type :=
| processShortActionsTaskHandle
| processLongActionsTaskHandle.

Inductive Queue : Type :=
| shortActionsQueue
| longActionsQueue.

(** ** External collaborators *)

(** The LED ring driver ([NeoPixelRing]). *)
Class NeoPixelRing := {
  RingSt : Type;
  ring_setColor : Z -> Z -> Z -> RingSt -> RingSt;
  ring_fadeColor : Z -> Z -> Z -> Z -> RingSt -> RingSt;
  ring_getColor : RingSt -> RGB_t
}.

(** The JSON library: parsing a NUL-terminated buffer, reading a member as
    [uint8_t] or [uint16_t], and serialising the status document into a
    buffer of a given size. *)
Class ArduinoJson := {
  JsonDocument : Type;
  deserializeJson : list byte -> option JsonDocument;
  as_uint8 : JsonDocument -> string -> Z;
  as_uint16 : JsonDocument -> string -> Z;
  serializeJson : RGB_t -> nat -> list byte
}.

(** ** Observable events *)

Inductive Event : Type :=
| EvSemaphoreTake (ok : bool)
| EvSemaphoreGive
| EvRingSetColor (r g b : Z)
| EvRingFadeColor (r g b time : Z)
| EvRingGetColor
| EvPublish (payload : list byte)
| EvQueueSend (q : Queue) (ok : bool)
| EvConnect (ret : Z)
| EvDisconnect
| EvSuspend (t : Task)
| EvResume (t : Task)
| EvDelay (ticks : Z).

Definition is_publish (e : Event) : bool :=
  match e with EvPublish _ => true | _ => false end.

Definition is_mutation (e : Event) : bool :=
  match e with
  | EvRingSetColor _ _ _ | EvRingFadeColor _ _ _ _ => true
  | _ => false
  end.

Definition is_ring_read (e : Event) : bool :=
  match e with EvRingGetColor => true | _ => false end.

Definition is_take (e : Event) : bool :=
  match e with EvSemaphoreTake _ => true | _ => false end.

Definition is_connect (e : Event) : bool :=
  match e with EvConnect _ => true | _ => false end.

Definition is_queue_send (e : Event) : bool :=
  match e with EvQueueSend _ _ => true | _ => false end.

Definition count (p : Event -> bool) (tr : list Event) : nat :=
  List.length (filter p tr).

Section Program.

Context {cfg : Config} {drv : NeoPixelRing} {json : ArduinoJson}.

(** ** The state the tasks share with their environment *)

Record World : Type := {
  ring : RingSt;
  ringMutex_free : bool;          (* a zero-wait take would succeed *)
  mqtt_connected : bool;          (* [mqtt.connected()] *)
  connect_results : nat -> Z;     (* what the k-th [mqtt.connect()] returns *)
  connect_count : nat;
  shortQ : list SubscriptionAction;
  longQ : list SubscriptionAction;
  short_suspended : bool;
  long_suspended : bool;
  trace : list Event
}.

Definition emit (e : Event) (w : World) : World :=
  {| ring := ring w; ringMutex_free := ringMutex_free w;
     mqtt_connected := mqtt_connected w;
     connect_results := connect_results w; connect_count := connect_count w;
     shortQ := shortQ w; longQ := longQ w;
     short_suspended := short_suspended w; long_suspended := long_suspended w;
     trace := trace w ++ [e] |}.

Definition set_ring (s : RingSt) (w : World) : World :=
  {| ring := s; ringMutex_free := ringMutex_free w;
     mqtt_connected := mqtt_connected w;
     connect_results := connect_results w; connect_count := connect_count w;
     shortQ := shortQ w; longQ := longQ w;
     short_suspended := short_suspended w; long_suspended := long_suspended w;
     trace := trace w |}.

Definition set_mutex (b : bool) (w : World) : World :=
  {| ring := ring w; ringMutex_free := b;
     mqtt_connected := mqtt_connected w;
     connect_results := connect_results w; connect_count := connect_count w;
     shortQ := shortQ w; longQ := longQ w;
     short_suspended := short_suspended w; long_suspended := long_suspended w;
     trace := trace w |}.

Definition set_link (c : bool) (k : nat) (w : World) : World :=
  {| ring := ring w; ringMutex_free := ringMutex_free w;
     mqtt_connected := c;
     connect_results := connect_results w; connect_count := k;
     shortQ := shortQ w; longQ := longQ w;
     short_suspended := short_suspended w; long_suspended := long_suspended w;
     trace := trace w |}.

Definition set_queue (q : Queue) (l : list SubscriptionAction) (w : World)
  : World :=
  {| ring := ring w; ringMutex_free := ringMutex_free w;
     mqtt_connected := mqtt_connected w;
     connect_results := connect_results w; connect_count := connect_count w;
     shortQ := match q with shortActionsQueue => l | _ => shortQ w end;
     longQ := match q with longActionsQueue => l | _ => longQ w end;
     short_suspended := short_suspended w; long_suspended := long_suspended w;
     trace := trace w |}.

Definition set_suspended (t : Task) (b : bool) (w : World) : World :=
  {| ring := ring w; ringMutex_free := ringMutex_free w;
     mqtt_connected := mqtt_connected w;
     connect_results := connect_results w; connect_count := connect_count w;
     shortQ := shortQ w; longQ := longQ w;
     short_suspended :=
       match t with processShortActionsTaskHandle => b
                  | _ => short_suspended w end;
     long_suspended :=
       match t with processLongActionsTaskHandle => b
                  | _ => long_suspended w end;
     trace := trace w |}.

Definition queue_of (q : Queue) (w : World) : list SubscriptionAction :=
  match q with shortActionsQueue => shortQ w | longActionsQueue => longQ w end.

(** Capacities given to [xQueueCreate] in [setup]. *)
Definition queue_capacity (q : Queue) : nat :=
  match q with shortActionsQueue => 2%nat | longActionsQueue => 4%nat end.

(** ** RTOS primitives *)

Definition vTaskDelay (ticks : Z) (w : World) : World := emit (EvDelay ticks) w.

Definition vTaskSuspend (t : Task) (w : World) : World :=
  emit (EvSuspend t) (set_suspended t true w).

Definition vTaskResume (t : Task) (w : World) : World :=
  emit (EvResume t) (set_suspended t false w).

(** [xSemaphoreTake(ringMutex, 0)]: no waiting. *)
Definition xSemaphoreTake (w : World) : bool * World :=
  if ringMutex_free w
  then (true, emit (EvSemaphoreTake true) (set_mutex false w))
  else (false, emit (EvSemaphoreTake false) w).

Definition xSemaphoreGive (w : World) : World :=
  emit EvSemaphoreGive (set_mutex true w).

(** [xQueueSend(q, &action, 0)]: a copy is appended unless the queue is
    full. *)
Definition xQueueSend (q : Queue) (a : SubscriptionAction) (w : World)
  : World :=
  if (List.length (queue_of q w) <? queue_capacity q)%nat
  then emit (EvQueueSend q true) (set_queue q (queue_of q w ++ [a]) w)
  else emit (EvQueueSend q false) w.

(** [xQueueReceive(q, &action, 0)]. *)
Definition xQueueReceive (q : Queue) (w : World)
  : option (SubscriptionAction * World) :=
  match queue_of q w with
  | [] => None
  | a :: rest => Some (a, set_queue q rest w)
  end.

(** ** MQTT client *)

Definition mqtt_connect (w : World) : Z * World :=
  let ret := wrap8 (connect_results w (connect_count w)) in
  (ret, emit (EvConnect ret) (set_link (ret =? 0) (S (connect_count w)) w)).

Definition mqtt_disconnect (w : World) : World :=
  emit EvDisconnect (set_link false (connect_count w) w).

Definition mqtt_publish (payload : list byte) (w : World) : World :=
  emit (EvPublish payload) w.

(** ** Methods of [main.cpp] *)

Definition clearAction (action : SubscriptionAction) : SubscriptionAction :=
  {| callback := None;
     data := memset (data action) x00 SUBSCRIPTIONDATALEN;
     length := 0 |}.

Definition setAction (action : SubscriptionAction)
  (subscription : option Adafruit_MQTT_Subscribe) : SubscriptionAction :=
  let action := clearAction action in
  match subscription with
  | Some sub =>
      match callback_buffer sub with
      | Some cb =>
          {| callback := Some cb;
             data := strncpy (data action) (lastread sub)
                       (SUBSCRIPTIONDATALEN - 1);
             length := datalen sub |}
      | None => action
      end
  | None => action
  end.

Definition publishRgbStatus (w : World) : World :=
  let color := ring_getColor (ring w) in
  let w := emit EvRingGetColor w in
  let output := serializeJson color SUBSCRIPTIONDATALEN in
  mqtt_publish output w.

(** ** MQTT callbacks *)

Definition getColor (data : list byte) (len : Z) (w : World) : World :=
  if Z.of_nat SUBSCRIPTIONDATALEN <? len then w
  else publishRgbStatus w.

Definition setColor (data : list byte) (len : Z) (w : World) : World :=
  if Z.of_nat SUBSCRIPTIONDATALEN <? len then w
  else
    match deserializeJson data with
    | None => w
    | Some doc =>
        let r := as_uint8 doc "r" in
        let g := as_uint8 doc "g" in
        let b := as_uint8 doc "b" in
        let time := as_uint16 doc "time" in
        let (taken, w) := xSemaphoreTake w in
        let w :=
          if taken then
            let w :=
              if negb (time =? 0)
              then emit (EvRingFadeColor r g b time)
                     (set_ring (ring_fadeColor r g b time (ring w)) w)
              else emit (EvRingSetColor r g b)
                     (set_ring (ring_setColor r g b (ring w)) w) in
            xSemaphoreGive w
          else w in
        publishRgbStatus w
    end.

Definition invoke (cb : SubscribeCallbackBufferType)
  (data : list byte) (len : Z) (w : World) : World :=
  match cb with
  | cb_getColor => getColor data len w
  | cb_setColor => setColor data len w
  end.

(** ** Outcomes of listener code

    [mqttConnect] either returns or stops the listener for good in its
    [while (1);].  [OutOfFuel] only reports that the embedding's loop bound
    was too small; [mqttConnect_total] below shows that it never is. *)
Inductive Outcome (A : Type) : Type :=
| Returned (a : A)
| Halted (w : World)
| OutOfFuel.

Arguments Returned {A} a.
Arguments Halted {A} w.
Arguments OutOfFuel {A}.

(** The [while ((ret = mqtt.connect()) != 0)] loop; [retries] is the
    [uint8_t] budget. *)
Fixpoint mqttConnect_loop (fuel : nat) (retries : Z) (w : World)
  : Outcome World :=
  match fuel with
  | O => OutOfFuel
  | S fuel' =>
      let (ret, w) := mqtt_connect w in
      if negb (ret =? 0) then
        let w := mqtt_disconnect w in
        let w := vTaskDelay (5000 / portTICK_PERIOD_MS) w in
        let retries := wrap8 (retries - 1) in
        if retries =? 0 then Halted w
        else mqttConnect_loop fuel' retries w
      else Returned w
  end.

Definition mqttConnect (w : World) : Outcome World :=
  if mqtt_connected w then Returned w
  else
    let w := vTaskSuspend processShortActionsTaskHandle w in
    let w := vTaskSuspend processLongActionsTaskHandle w in
    match mqttConnect_loop 256 3 w with
    | Returned w =>
        let w := vTaskResume processShortActionsTaskHandle w in
        let w := vTaskResume processLongActionsTaskHandle w in
        Returned (vTaskDelay (250 / portTICK_PERIOD_MS) w)
    | Halted w => Halted w
    | OutOfFuel => OutOfFuel
    end.

(** ** Worker tasks

    One turn of the [while (1)] loop of a worker; [action] is the task's
    local envelope.  Calling a null [callback] is a crash: [None]. *)
Definition worker_iter (q : Queue) (period : Z)
  (action : SubscriptionAction) (w : World)
  : option (SubscriptionAction * World) :=
  match xQueueReceive q w with
  | Some (action, w) =>
      match callback action with
      | Some cb =>
          let w := invoke cb (data action) (length action) w in
          let action := clearAction action in
          Some (action, vTaskDelay (period / portTICK_PERIOD_MS) w)
      | None => None
      end
  | None => Some (action, vTaskDelay (period / portTICK_PERIOD_MS) w)
  end.

Definition processShortActionsTask_iter := worker_iter shortActionsQueue 250.
Definition processLongActionsTask_iter := worker_iter longActionsQueue 50.

(** [n] turns of a worker loop. *)
Fixpoint worker_run (q : Queue) (period : Z) (n : nat)
  (action : SubscriptionAction) (w : World)
  : option (SubscriptionAction * World) :=
  match n with
  | O => Some (action, w)
  | S n' =>
      match worker_iter q period action w with
      | Some (action, w) => worker_run q period n' action w
      | None => None
      end
  end.

(** ** Listener task *)

Record Timing : Type := { startTime : Z; endTime : Z; elapsed : Z }.

(** Lines 231-233: the three statements that close a turn of the polling
    loop, on [uint32_t] values; [now] is what [millis()] returns. *)
Definition account (t : Timing) (now : Z) : Timing :=
  let endTime := now in
  let startTime := if endTime <? startTime t then endTime else startTime t in
  {| startTime := startTime;
     endTime := endTime;
     elapsed := wrap32 (elapsed t + wrap32 (endTime - startTime)) |}.

(** What the accumulator grows by in that turn, before the addition. *)
Definition increment (t : Timing) (now : Z) : Z :=
  wrap32 (endTime (account t now) - startTime (account t now)).

(** Lines 194-228: the body of [if ((subscription = readSubscription(..)))].
    The boolean tells whether the polling loop is left by [break]. *)
Definition on_subscription (subscription : SubPtr)
  (action : SubscriptionAction) (w : World)
  : bool * SubscriptionAction * World :=
  let action := setAction action (Some (sub_obj subscription)) in
  match sub_id subscription with
  | getColorSub =>
      match callback action with
      | Some _ =>
          let w := xQueueSend shortActionsQueue action w in
          (true, action, vTaskDelay (250 / portTICK_PERIOD_MS) w)
      | None => (true, action, w)
      end
  | setColorSub =>
      match callback action with
      | Some _ =>
          let w := xQueueSend longActionsQueue action w in
          (true, action, vTaskDelay (250 / portTICK_PERIOD_MS) w)
      | None => (true, action, w)
      end
  | otherSub _ => (false, action, w)
  end.

(** What the environment supplies in one turn of the polling loop: the
    result of [readSubscription] (null is [None]) and the next [millis()]. *)
Record PollInput : Type := { sub_in : option SubPtr; millis_in : Z }.

(** The polling loop, run on a finite prefix of environment inputs. *)
Fixpoint poll_loop (inputs : list PollInput) (t : Timing)
  (action : SubscriptionAction) (w : World)
  : Timing * SubscriptionAction * World :=
  match inputs with
  | [] => (t, action, w)
  | i :: rest =>
      if elapsed t <? READ_SUBSCRIPTION_TIMEOUT then
        match sub_in i with
        | Some subscription =>
            match on_subscription subscription action w with
            | (true, action, w) => (t, action, w)
            | (false, action, w) =>
                poll_loop rest (account t (millis_in i)) action w
            end
        | None => poll_loop rest (account t (millis_in i)) action w
        end
      else (t, action, w)
  end.

(** One turn of the outer [while (1)] of [processInputTask]. *)
Record IterInput : Type := { start_millis : Z; polls : list PollInput }.

Definition processInputTask_iter (i : IterInput)
  (action : SubscriptionAction) (w : World)
  : Outcome (SubscriptionAction * World) :=
  match mqttConnect w with
  | Returned w =>
      let t := {| startTime := start_millis i; endTime := 0; elapsed := 0 |} in
      match poll_loop (polls i) t action w with
      | (_, action, w) => Returned (action, w)
      end
  | Halted w => Halted w
  | OutOfFuel => OutOfFuel
  end.

(** The listener on a finite prefix of environment inputs.  Once halted it
    executes nothing more, whatever the environment offers. *)
Fixpoint processInputTask (inputs : list IterInput)
  (action : SubscriptionAction) (w : World)
  : Outcome (SubscriptionAction * World) :=
  match inputs with
  | [] => Returned (action, w)
  | i :: rest =>
      match processInputTask_iter i action w with
      | Returned (action, w) => processInputTask rest action w
      | Halted w => Halted w
      | OutOfFuel => OutOfFuel
      end
  end.

(** ** Predicates used by the statements *)

Definition wf_action (a : SubscriptionAction) : Prop :=
  List.length (data a) = SUBSCRIPTIONDATALEN.

Definition wf_subscribe (s : Adafruit_MQTT_Subscribe) : Prop :=
  List.length (lastread s) = SUBSCRIPTIONDATALEN.

(** The empty envelope of the data model. *)
Definition is_empty (a : SubscriptionAction) : Prop :=
  callback a = None /\ length a = 0 /\ Forall (eq x00) (data a).

(** The payload bytes of an event. *)
Definition payload (s : Adafruit_MQTT_Subscribe) : list byte :=
  firstn (Z.to_nat (datalen s)) (lastread s).

Definition recognized (s : SubId) : bool :=
  match s with getColorSub | setColorSub => true | otherSub _ => false end.

Definition has_callback (a : SubscriptionAction) : Prop := callback a <> None.

(** The events of one failed connect attempt with return code [r]. *)
Definition backoff (r : Z) : list Event :=
  [EvConnect r; EvDisconnect; EvDelay (5000 / portTICK_PERIOD_MS)].

(** The events of the connect attempt that succeeds and of what follows. *)
Definition resumed : list Event :=
  [EvConnect 0;
   EvResume processShortActionsTaskHandle;
   EvResume processLongActionsTaskHandle;
   EvDelay (250 / portTICK_PERIOD_MS)].

Definition suspended : list Event :=
  [EvSuspend processShortActionsTaskHandle;
   EvSuspend processLongActionsTaskHandle].

(** The non-zero return codes the broker gives from attempt [k] on, up to
    the first success and at most [n] of them. *)
Fixpoint failures (n : nat) (results : nat -> Z) (k : nat) : list Z :=
  match n with
  | O => []
  | S n' =>
      let r := wrap8 (results k) in
      if r =? 0 then [] else r :: failures n' results (S k)
  end.

(** An input of the polling loop that is not an event of one of the two
    recognised subscriptions. *)
Definition unrecognized_input (i : PollInput) : Prop :=
  match sub_in i with
  | Some subscription => recognized (sub_id subscription) = false
  | None => True
  end.

(** Replays a trace from given suspension flags of the two workers and
    checks that both are suspended at every connect attempt. *)
Fixpoint paused_at_connects (short long : bool) (tr : list Event) : bool :=
  match tr with
  | [] => true
  | EvConnect _ :: tr' => short && long && paused_at_connects short long tr'
  | EvSuspend processShortActionsTaskHandle :: tr' =>
      paused_at_connects true long tr'
  | EvSuspend processLongActionsTaskHandle :: tr' =>
      paused_at_connects short true tr'
  | EvResume processShortActionsTaskHandle :: tr' =>
      paused_at_connects false long tr'
  | EvResume processLongActionsTaskHandle :: tr' =>
      paused_at_connects short false tr'
  | _ :: tr' => paused_at_connects short long tr'
  end.

End Program.

Arguments Returned {drv A} a.
Arguments Halted {drv A} w.
Arguments OutOfFuel {drv A}.

(** ** A concrete build, to run the model on inputs

    The constants of an ESP32 build with a 1 ms tick, a ring driver that
    holds the colour last requested, and a small stand-in codec for the
    command and status documents:  [{ r g b }] or [{ r g b hi lo }], one
    byte per field, [time = 256 * hi + lo]. *)

Definition sample_config : Config :=
  {| SUBSCRIPTIONDATALEN := 100;
     READ_SUBSCRIPTION_TIMEOUT := 5000;
     portTICK_PERIOD_MS := 1 |}.

Definition sample_ring : NeoPixelRing :=
  {| RingSt := RGB_t;
     ring_setColor := fun r g b _ => {| rgb_r := r; rgb_g := g; rgb_b := b |};
     ring_fadeColor :=
       fun r g b _ _ => {| rgb_r := r; rgb_g := g; rgb_b := b |};
     ring_getColor := fun s => s |}.

Definition byte_to_Z (c : byte) : Z := Z.of_N (Byte.to_N c).

Definition byte_of_Z (z : Z) : byte :=
  match Byte.of_N (Z.to_N (z mod 256)) with
  | Some c => c
  | None => x00
  end.

Fixpoint member (k : string) (doc : list (string * Z)) : option Z :=
  match doc with
  | [] => None
  | (k', v) :: doc' => if String.eqb k k' then Some v else member k doc'
  end.

Definition sample_parse (buf : list byte) : option (list (string * Z)) :=
  match buf with
  | o :: r :: g :: b :: rest =>
      let rgb := [("r"%string, byte_to_Z r); ("g"%string, byte_to_Z g);
                  ("b"%string, byte_to_Z b)] in
      if Byte.eqb o x7b then
        match rest with
        | c :: rest' =>
            if Byte.eqb c x7d then Some rgb
            else
              match rest' with
              | lo :: c' :: _ =>
                  if Byte.eqb c' x7d
                  then Some (rgb ++ [("time"%string,
                                      256 * byte_to_Z c + byte_to_Z lo)])
                  else None
              | _ => None
              end
        | [] => None
        end
      else None
  | _ => None
  end.

Definition sample_json : ArduinoJson :=
  {| JsonDocument := list (string * Z);
     deserializeJson := sample_parse;
     as_uint8 := fun doc k =>
       match member k doc with Some v => v mod 2 ^ 8 | None => 0 end;
     as_uint16 := fun doc k =>
       match member k doc with Some v => v mod 2 ^ 16 | None => 0 end;
     serializeJson := fun c size =>
       firstn size [x7b; byte_of_Z (rgb_r c); byte_of_Z (rgb_g c);
                    byte_of_Z (rgb_b c); x7d] |}.

Definition SampleWorld : Type :=
  @World sample_ring.

(** A world with a dark ring, empty queues, running workers and no link;
    [free] says whether the ring mutex is available and [results] what the
    broker will answer to each connect attempt. *)
Definition sample_world (free : bool) (results : nat -> Z) : SampleWorld :=
  @Build_World sample_ring
    {| rgb_r := 0; rgb_g := 0; rgb_b := 0 |}
    free false results 0%nat [] [] false false [].

Definition zero_action : SubscriptionAction :=
  {| callback := None; data := repeat x00 100; length := 0 |}.

(** An event whose declared length is above the capacity. *)
Definition oversized_event : Adafruit_MQTT_Subscribe :=
  {| callback_buffer := Some cb_setColor;
     lastread := repeat x61 100;
     datalen := 101 |}.

(** A three-byte payload with a NUL in the middle. *)
Definition nul_event : Adafruit_MQTT_Subscribe :=
  {| callback_buffer := Some cb_setColor;
     lastread := [x61; x00; x62] ++ repeat x00 97;
     datalen := 3 |}.

(** The command [{ 10 20 30 }], no [time]. *)
Definition set_event : Adafruit_MQTT_Subscribe :=
  {| callback_buffer := Some cb_setColor;
     lastread := [x7b; x0a; x14; x1e; x7d] ++ repeat x00 95;
     datalen := 5 |}.

(** The command [{ 10 20 30 1 244 }], [time = 500]. *)
Definition fade_event : Adafruit_MQTT_Subscribe :=
  {| callback_buffer := Some cb_setColor;
     lastread := [x7b; x0a; x14; x1e; x01; xf4; x7d] ++ repeat x00 93;
     datalen := 7 |}.

(** A command payload that does not parse. *)
Definition bad_event : Adafruit_MQTT_Subscribe :=
  {| callback_buffer := Some cb_setColor;
     lastread := [x6f; x6f; x70; x73] ++ repeat x00 96;
     datalen := 4 |}.

(** An empty query. *)
Definition query_event : Adafruit_MQTT_Subscribe :=
  {| callback_buffer := Some cb_getColor;
     lastread := repeat x00 100;
     datalen := 0 |}.

Definition always_fail : nat -> Z := fun _ => 4.
Definition fail_twice : nat -> Z := fun k => if (k <? 2)%nat then 4 else 0.

(** ** Further notions used by the statements *)

(** A buffer read as a C string: the bytes before its first NUL. *)
Fixpoint cstring (buf : list byte) : list byte :=
  match buf with
  | [] => []
  | c :: buf' => if Byte.eqb c x00 then [] else c :: cstring buf'
  end.

(** Replays a trace from the point of view of the task that runs it:
    [held] says whether the task holds the ring mutex.  The result is the
    final [held], or [None] if the ring was mutated, or the mutex given,
    while the task did not hold it. *)
Fixpoint lock_replay (held : bool) (tr : list Event) : option bool :=
  match tr with
  | [] => Some held
  | EvSemaphoreTake true :: tr' => lock_replay true tr'
  | EvSemaphoreGive :: tr' => if held then lock_replay false tr' else None
  | EvRingSetColor _ _ _ :: tr' | EvRingFadeColor _ _ _ _ :: tr' =>
      if held then lock_replay held tr' else None
  | _ :: tr' => lock_replay held tr'
  end.

(** The sum of the differences of the samples to a start value. *)
Definition elapsed_sum (start : Z) (samples : list Z) : Z :=
  fold_right (fun now acc => (now - start) + acc) 0 samples.

(** The queue the listener sends the events of a subscription to. *)
Definition route (s : SubId) : option Queue :=
  match s with
  | getColorSub => Some shortActionsQueue
  | setColorSub => Some longActionsQueue
  | otherSub _ => None
  end.

Definition other_queue (q : Queue) : Queue :=
  match q with
  | shortActionsQueue => longActionsQueue
  | longActionsQueue => shortActionsQueue
  end.

Section Invariants.

Context {cfg : Config} {drv : NeoPixelRing}.

(** What holds of every envelope in a queue: it has a callback and its
    buffer has the size of the array. *)
Definition queued_ok (a : SubscriptionAction) : Prop :=
  has_callback a /\ wf_action a.

Definition queue_ok (q : Queue) (l : list SubscriptionAction) : Prop :=
  Forall queued_ok l /\ (List.length l <= queue_capacity q)%nat.

Definition queues_ok (w : World) : Prop :=
  queue_ok shortActionsQueue (shortQ w) /\
  queue_ok longActionsQueue (longQ w).

(** The parts of the world that belong to the RTOS and the MQTT client. *)
Definition same_system (w w' : World) : Prop :=
  ringMutex_free w' = ringMutex_free w /\
  mqtt_connected w' = mqtt_connected w /\
  connect_count w' = connect_count w /\
  short_suspended w' = short_suspended w /\
  long_suspended w' = long_suspended w /\
  shortQ w' = shortQ w /\
  longQ w' = longQ w.

(** The parts of the world that belong to the workers' callbacks. *)
Definition same_device (w w' : World) : Prop :=
  ring w' = ring w /\
  ringMutex_free w' = ringMutex_free w /\
  count is_mutation (trace w') = count is_mutation (trace w) /\
  count is_ring_read (trace w') = count is_ring_read (trace w) /\
  count is_publish (trace w') = count is_publish (trace w).

End Invariants.

(** * Properties *)

(** ** Buffers *)

Lemma strncpy_src_length (src : list byte) (n : nat) :
  List.length (strncpy_src src n) = n.
Proof.
  revert src; induction n as [|n IH]; intros src; [reflexivity|].
  destruct src as [|c src']; cbn [strncpy_src].
  - apply repeat_length.
  - destruct (Byte.eqb c x00).
    + apply repeat_length.
    + cbn [List.length]. now rewrite IH.
Qed.

Lemma strncpy_src_prefix (k : nat) :
  forall (src : list byte) (n : nat),
    (k <= n)%nat -> (k <= List.length src)%nat ->
    Forall (fun c => c <> x00) (firstn k src) ->
    firstn k (strncpy_src src n) = firstn k src.
Proof.
  induction k as [|k IH]; intros src n Hn Hsrc Hnz; [reflexivity|].
  destruct n as [|n]; [lia|].
  destruct src as [|c src']; [cbn in Hsrc; lia|].
  cbn [firstn] in Hnz. inversion Hnz as [|? ? Hc Hrest]; subst.
  cbn [strncpy_src].
  destruct (Byte.eqb c x00) eqn:E.
  - apply Byte.byte_dec_bl in E. contradiction.
  - cbn [firstn]. f_equal. apply IH; [lia | cbn in Hsrc; lia | assumption].
Qed.

Lemma memset_whole (buf : list byte) (c : byte) (n : nat) :
  List.length buf = n -> memset buf c n = repeat c n.
Proof.
  intros H. unfold memset.
  rewrite skipn_all2 by lia. apply app_nil_r.
Qed.

Lemma Forall_repeat_eq (c : byte) (n : nat) : Forall (eq c) (repeat c n).
Proof. induction n; cbn; constructor; auto. Qed.

Section Properties.

Context {cfg : Config} {drv : NeoPixelRing} {json : ArduinoJson}.

Lemma clearAction_empty (a : SubscriptionAction) :
  wf_action a -> is_empty (clearAction a).
Proof.
  intros H. unfold is_empty, clearAction; cbn.
  repeat split. rewrite memset_whole by exact H. apply Forall_repeat_eq.
Qed.

(** A subscription without a callback, and the null subscription, leave
    the envelope empty. *)
Lemma setAction_no_callback (a : SubscriptionAction)
  (sub : Adafruit_MQTT_Subscribe) :
  wf_action a -> callback_buffer sub = None ->
  is_empty (setAction a (Some sub)) /\ is_empty (setAction a None).
Proof.
  intros Ha Hcb. unfold setAction. rewrite Hcb.
  split; apply clearAction_empty; exact Ha.
Qed.

(** Both callbacks return at once, with no effect, on an oversized length. *)
Lemma invoke_oversized (cb : SubscribeCallbackBufferType)
  (buf : list byte) (len : Z) (w : World) :
  Z.of_nat SUBSCRIPTIONDATALEN < len -> invoke cb buf len w = w.
Proof.
  intros H. apply Z.ltb_lt in H.
  destruct cb; cbn [invoke]; unfold getColor, setColor; now rewrite H.
Qed.

(** C1 (as amended).  [setAction] makes no size check.  For every event
    whose subscription carries a callback, the envelope gets that callback
    and the event's length, whatever the length; an envelope whose length
    exceeds the capacity is dropped later, by the callback it names, which
    returns with no effect.  When the length is at most capacity - 1 and the
    payload holds no NUL byte, the first [length] bytes of the envelope's
    buffer are the payload bytes exactly. *)
Theorem setAction_size_bound (a0 : SubscriptionAction)
  (sub : Adafruit_MQTT_Subscribe) (cb : SubscribeCallbackBufferType) :
  wf_subscribe sub -> callback_buffer sub = Some cb ->
  let a := setAction a0 (Some sub) in
  callback a = Some cb /\
  length a = datalen sub /\
  (Z.of_nat SUBSCRIPTIONDATALEN < datalen sub ->
   forall w : World, invoke cb (data a) (length a) w = w) /\
  (0 <= datalen sub <= Z.of_nat SUBSCRIPTIONDATALEN - 1 ->
   Forall (fun c => c <> x00) (payload sub) ->
   firstn (Z.to_nat (datalen sub)) (data a) = payload sub).
Proof.
  intros Hs Hcb a. subst a. unfold setAction. rewrite Hcb. cbn.
  repeat split.
  - intros Hbig w. now apply invoke_oversized.
  - intros Hlen Hnz. unfold strncpy, payload in *.
    rewrite firstn_app, strncpy_src_length.
    replace (Z.to_nat (datalen sub) - (SUBSCRIPTIONDATALEN - 1))%nat
      with 0%nat by lia.
    cbn [firstn]. rewrite app_nil_r.
    apply strncpy_src_prefix; [lia | rewrite Hs; lia | exact Hnz].
Qed.

(** ** Callbacks *)

Lemma trace_emit (e : Event) (w : World) : trace (emit e w) = trace w ++ [e].
Proof. reflexivity. Qed.

Lemma count_app (p : Event -> bool) (l1 l2 : list Event) :
  count p (l1 ++ l2) = (count p l1 + count p l2)%nat.
Proof. unfold count. now rewrite filter_app, length_app. Qed.

Lemma publishRgbStatus_trace (w : World) :
  trace (publishRgbStatus w)
  = trace w ++ [EvRingGetColor;
                EvPublish (serializeJson (ring_getColor (ring w))
                             SUBSCRIPTIONDATALEN)].
Proof. unfold publishRgbStatus, mqtt_publish; cbn. now rewrite <- app_assoc. Qed.

Lemma publishRgbStatus_ring (w : World) : ring (publishRgbStatus w) = ring w.
Proof. reflexivity. Qed.

(** What [setColor] does once the payload is within bounds and parsed. *)
Lemma setColor_parsed (buf : list byte) (len : Z) (w : World)
  (doc : JsonDocument) :
  len <= Z.of_nat SUBSCRIPTIONDATALEN ->
  deserializeJson buf = Some doc ->
  let r := as_uint8 doc "r" in
  let g := as_uint8 doc "g" in
  let b := as_uint8 doc "b" in
  let time := as_uint16 doc "time" in
  let ring' :=
    if ringMutex_free w then
      if time =? 0 then ring_setColor r g b (ring w)
      else ring_fadeColor r g b time (ring w)
    else ring w in
  let attempt :=
    if ringMutex_free w then
      [EvSemaphoreTake true;
       if time =? 0 then EvRingSetColor r g b else EvRingFadeColor r g b time;
       EvSemaphoreGive]
    else [EvSemaphoreTake false] in
  ring (setColor buf len w) = ring' /\
  trace (setColor buf len w)
  = trace w ++ attempt
      ++ [EvRingGetColor;
          EvPublish (serializeJson (ring_getColor ring') SUBSCRIPTIONDATALEN)].
Proof.
  intros Hlen Hdoc. cbv zeta. unfold setColor.
  replace (Z.of_nat SUBSCRIPTIONDATALEN <? len) with false
    by (symmetry; apply Z.ltb_ge; lia).
  rewrite Hdoc. unfold xSemaphoreTake.
  destruct (ringMutex_free w) eqn:Hfree.
  - destruct (as_uint16 doc "time" =? 0) eqn:Ht; cbn [negb];
      (split; [reflexivity|]);
      rewrite publishRgbStatus_trace; cbn; now rewrite <- !app_assoc.
  - split; [reflexivity|].
    rewrite publishRgbStatus_trace; cbn; now rewrite <- !app_assoc.
Qed.

(** C2.  A well-formed command that finds the lock free calls
    [setColor(r, g, b)] on the driver, and never [fadeColor], when [time] is
    zero (an absent member reads as zero); it calls
    [fadeColor(r, g, b, time)], and never [setColor], when [time] is
    positive.  The events listed are all the handler adds to the trace. *)
Theorem setColor_dispatch (buf : list byte) (len : Z) (w : World)
  (doc : JsonDocument) :
  len <= Z.of_nat SUBSCRIPTIONDATALEN ->
  deserializeJson buf = Some doc ->
  ringMutex_free w = true ->
  let r := as_uint8 doc "r" in
  let g := as_uint8 doc "g" in
  let b := as_uint8 doc "b" in
  let time := as_uint16 doc "time" in
  let w' := setColor buf len w in
  (time = 0 ->
   ring w' = ring_setColor r g b (ring w) /\
   trace w'
   = trace w
       ++ [EvSemaphoreTake true; EvRingSetColor r g b; EvSemaphoreGive;
           EvRingGetColor;
           EvPublish (serializeJson (ring_getColor (ring w'))
                        SUBSCRIPTIONDATALEN)]) /\
  (0 < time ->
   ring w' = ring_fadeColor r g b time (ring w) /\
   trace w'
   = trace w
       ++ [EvSemaphoreTake true; EvRingFadeColor r g b time; EvSemaphoreGive;
           EvRingGetColor;
           EvPublish (serializeJson (ring_getColor (ring w'))
                        SUBSCRIPTIONDATALEN)]).
Proof.
  intros Hlen Hdoc Hfree. cbv zeta.
  destruct (setColor_parsed buf len w doc Hlen Hdoc) as [Hring Htrace].
  rewrite Hfree in Hring, Htrace.
  split; intros Ht.
  - rewrite Ht in Hring, Htrace. cbn in Hring, Htrace.
    rewrite Htrace, Hring. now split.
  - assert (E : (as_uint16 doc "time" =? 0) = false) by (apply Z.eqb_neq; lia).
    rewrite E in Hring, Htrace. cbn in Htrace.
    rewrite Htrace, Hring. now split.
Qed.

(** C3.  A command that is within bounds and parses publishes the status
    exactly once, as the last thing it does, after the mutation attempt:
    the status is the colour read from the ring at that point.  This holds
    whether the lock was free (one driver mutation before the read) or held
    (no mutation, ring untouched). *)
Theorem setColor_status_echo (buf : list byte) (len : Z) (w : World)
  (doc : JsonDocument) :
  len <= Z.of_nat SUBSCRIPTIONDATALEN ->
  deserializeJson buf = Some doc ->
  let w' := setColor buf len w in
  exists (attempt : list Event) (status : list byte),
    trace w' = trace w ++ attempt ++ [EvRingGetColor; EvPublish status] /\
    status = serializeJson (ring_getColor (ring w')) SUBSCRIPTIONDATALEN /\
    count is_publish (attempt ++ [EvRingGetColor; EvPublish status]) = 1%nat /\
    count is_mutation attempt = (if ringMutex_free w then 1 else 0)%nat /\
    (ringMutex_free w = false -> ring w' = ring w).
Proof.
  intros Hlen Hdoc. cbv zeta.
  destruct (setColor_parsed buf len w doc Hlen Hdoc) as [Hring Htrace].
  cbv zeta in Hring, Htrace.
  eexists. eexists. split; [exact Htrace|].
  rewrite Hring.
  split; [reflexivity|].
  destruct (ringMutex_free w).
  - destruct (as_uint16 doc "time" =? 0);
      repeat split; try reflexivity; discriminate.
  - repeat split; reflexivity.
Qed.

(** C4 (as amended).  For a length within the capacity the query handler
    ignores the payload bytes and takes no lock at all: it reads the colour
    from the ring and publishes one status message with it, whether the
    ring mutex is free or held.  Ring and mutex are left as they were. *)
Theorem getColor_unlocked_read (buf : list byte) (len : Z) (w : World) :
  len <= Z.of_nat SUBSCRIPTIONDATALEN ->
  let w' := getColor buf len w in
  trace w'
  = trace w
      ++ [EvRingGetColor;
          EvPublish (serializeJson (ring_getColor (ring w))
                       SUBSCRIPTIONDATALEN)] /\
  ring w' = ring w /\
  ringMutex_free w' = ringMutex_free w /\
  (forall buf' : list byte, getColor buf' len w = w').
Proof.
  intros Hlen. cbv zeta. unfold getColor.
  replace (Z.of_nat SUBSCRIPTIONDATALEN <? len) with false
    by (symmetry; apply Z.ltb_ge; lia).
  repeat split. apply publishRgbStatus_trace.
Qed.

(** C10.  A command whose data does not parse leaves the world, and so the
    trace, as it was: no status is published.  A command that parses but
    finds the lock held still publishes its status. *)
Theorem setColor_malformed_no_status (buf : list byte) (len : Z) (w : World) :
  deserializeJson buf = None ->
  setColor buf len w = w /\
  count is_publish (trace (setColor buf len w)) = count is_publish (trace w) /\
  (forall (buf' : list byte) (doc : JsonDocument),
      len <= Z.of_nat SUBSCRIPTIONDATALEN ->
      deserializeJson buf' = Some doc ->
      ringMutex_free w = false ->
      count is_publish (trace (setColor buf' len w))
      = S (count is_publish (trace w))).
Proof.
  intros Hbad.
  assert (E : setColor buf len w = w).
  { unfold setColor. rewrite Hbad.
    now destruct (Z.of_nat SUBSCRIPTIONDATALEN <? len). }
  split; [exact E|]. split; [now rewrite E|].
  intros buf' doc Hlen Hdoc Hheld.
  destruct (setColor_parsed buf' len w doc Hlen Hdoc) as [_ Htrace].
  rewrite Htrace, Hheld, count_app. cbn. lia.
Qed.

(** ** Workers *)

Lemma publishRgbStatus_queues (q : Queue) (w : World) :
  queue_of q (publishRgbStatus w) = queue_of q w.
Proof. now destruct q. Qed.

(** The callbacks never touch the queues. *)
Lemma invoke_queues (cb : SubscribeCallbackBufferType) (buf : list byte)
  (len : Z) (q : Queue) (w : World) :
  queue_of q (invoke cb buf len w) = queue_of q w.
Proof.
  destruct cb; cbn [invoke]; unfold getColor, setColor;
    destruct (Z.of_nat SUBSCRIPTIONDATALEN <? len); try reflexivity.
  destruct (deserializeJson buf) as [doc|]; [|reflexivity].
  unfold xSemaphoreTake.
  destruct (ringMutex_free w);
    [destruct (negb (as_uint16 doc "time" =? 0))|];
    rewrite publishRgbStatus_queues; now destruct q.
Qed.

(** A worker whose queue holds only envelopes with a callback never calls a
    null pointer, however long it runs. *)
Lemma worker_run_total (q : Queue) (period : Z) (n : nat) :
  forall (action : SubscriptionAction) (w : World),
    Forall has_callback (queue_of q w) ->
    worker_run q period n action w <> None.
Proof.
  induction n as [|n IH]; intros action w Hq; [discriminate|].
  cbn [worker_run]. unfold worker_iter, xQueueReceive.
  destruct (queue_of q w) as [|a rest] eqn:Eq.
  - apply IH. destruct q; cbn in *; rewrite Eq; constructor.
  - inversion Hq as [|? ? Ha Hrest]; subst.
    destruct (callback a) as [cb|] eqn:Ecb; [|now elim Ha].
    apply IH.
    assert (E : queue_of q
                  (vTaskDelay (period / portTICK_PERIOD_MS)
                     (invoke cb (data a) (length a) (set_queue q rest w)))
                = rest).
    { transitivity
        (queue_of q (invoke cb (data a) (length a) (set_queue q rest w))).
      - now destruct q.
      - rewrite invoke_queues. now destruct q. }
    rewrite E. exact Hrest.
Qed.

(** C5.  When the slow worker dequeues a command whose data does not
    parse, its turn completes: the ring is untouched, the only event is the
    worker's own delay (no driver call), the envelope is cleared and the
    queue advanced; and the loop goes on to any number of further turns
    without crashing. *)
Theorem malformed_command_skipped (a local : SubscriptionAction)
  (rest : list SubscriptionAction) (w : World) :
  longQ w = a :: rest ->
  callback a = Some cb_setColor ->
  deserializeJson (data a) = None ->
  Forall has_callback rest ->
  exists w' : World,
    processLongActionsTask_iter local w = Some (clearAction a, w') /\
    ring w' = ring w /\
    trace w' = trace w ++ [EvDelay (50 / portTICK_PERIOD_MS)] /\
    count is_mutation (trace w') = count is_mutation (trace w) /\
    longQ w' = rest /\
    forall n : nat,
      worker_run longActionsQueue 50 n (clearAction a) w' <> None.
Proof.
  intros Hq Hcb Hbad Hrest.
  unfold processLongActionsTask_iter, worker_iter, xQueueReceive.
  cbn [queue_of]. rewrite Hq, Hcb. cbn [invoke].
  assert (E : forall w0 : World, setColor (data a) (length a) w0 = w0).
  { intros w0. unfold setColor. rewrite Hbad.
    now destruct (Z.of_nat SUBSCRIPTIONDATALEN <? length a). }
  rewrite E. eexists. split; [reflexivity|].
  repeat split.
  - unfold vTaskDelay. rewrite trace_emit, count_app.
    change (trace (set_queue longActionsQueue rest w)) with (trace w).
    change (count is_mutation [EvDelay (50 / portTICK_PERIOD_MS)])
      with 0%nat.
    apply Nat.add_0_r.
  - intros n. apply worker_run_total. exact Hrest.
Qed.

(** ** Connection procedure *)

Lemma mqttConnect_loop_eq (fuel : nat) (retries : Z) (w : World) :
  mqttConnect_loop (S fuel) retries w
  = let r := wrap8 (connect_results w (connect_count w)) in
    let w1 := snd (mqtt_connect w) in
    if r =? 0 then Returned w1
    else
      let w2 := vTaskDelay (5000 / portTICK_PERIOD_MS) (mqtt_disconnect w1) in
      if wrap8 (retries - 1) =? 0 then Halted w2
      else mqttConnect_loop fuel (wrap8 (retries - 1)) w2.
Proof.
  cbn [mqttConnect_loop]. unfold mqtt_connect. cbn [snd].
  now destruct (wrap8 (connect_results w (connect_count w)) =? 0).
Qed.

(** The loop with a budget of [n] (1 to 255) retries: it returns after the
    first success, or halts after [n] failures in a row. *)
Lemma mqttConnect_loop_spec (n : nat) :
  forall (fuel : nat) (w : World),
    (0 < n < 256)%nat -> (n <= fuel)%nat ->
    let failed := failures n (connect_results w) (connect_count w) in
    exists w' : World,
      trace w'
      = trace w ++ flat_map backoff failed
          ++ (if (List.length failed <? n)%nat then [EvConnect 0] else []) /\
      connect_results w' = connect_results w /\
      connect_count w'
      = (connect_count w + List.length failed
         + (if (List.length failed <? n)%nat then 1 else 0))%nat /\
      short_suspended w' = short_suspended w /\
      long_suspended w' = long_suspended w /\
      mqtt_connected w' = (List.length failed <? n)%nat /\
      mqttConnect_loop fuel (Z.of_nat n) w
      = if (List.length failed <? n)%nat then Returned w' else Halted w'.
Proof.
  induction n as [|n IH]; intros fuel w Hn Hfuel; [lia|].
  destruct fuel as [|fuel]; [lia|].
  rewrite mqttConnect_loop_eq. cbv zeta. cbn [failures].
  set (w2 := vTaskDelay (5000 / portTICK_PERIOD_MS)
               (mqtt_disconnect (snd (mqtt_connect w)))).
  destruct (wrap8 (connect_results w (connect_count w)) =? 0) eqn:E.
  - apply Z.eqb_eq in E.
    exists (snd (mqtt_connect w)).
    unfold mqtt_connect. rewrite E.
    cbn [List.length flat_map app Nat.ltb Nat.leb snd].
    repeat split. cbn. lia.
  - replace (wrap8 (Z.of_nat (S n) - 1)) with (Z.of_nat n)
      by (unfold wrap8; rewrite Z.mod_small; lia).
    destruct n as [|n].
    + cbn [Z.of_nat Z.eqb failures List.length flat_map].
      exists w2. repeat split.
      * cbn. rewrite <- !app_assoc. reflexivity.
      * cbn. lia.
    + replace (Z.of_nat (S n) =? 0) with false
        by (symmetry; apply Z.eqb_neq; lia).
      destruct (IH fuel w2 ltac:(lia) ltac:(lia))
        as (w' & Htr & Hres & Hcnt & Hs & Hl & Hc & Hrun).
      change (connect_results w2) with (connect_results w) in *.
      change (connect_count w2) with (S (connect_count w)) in *.
      exists w'. cbn [List.length flat_map].
      change (S (List.length ?l) <? S (S n))%nat
        with (List.length l <? S n)%nat.
      repeat split; try assumption.
      * rewrite Htr. cbn. rewrite <- !app_assoc. reflexivity.
      * rewrite Hcnt. lia.
Qed.

Lemma failures_nonzero (n : nat) :
  forall (results : nat -> Z) (k : nat),
    Forall (fun r => r <> 0) (failures n results k).
Proof.
  induction n as [|n IH]; intros results k; cbn [failures]; [constructor|].
  destruct (wrap8 (results k) =? 0) eqn:E; constructor.
  - now apply Z.eqb_neq.
  - apply IH.
Qed.

Lemma failures_length (n : nat) :
  forall (results : nat -> Z) (k : nat),
    (List.length (failures n results k) <= n)%nat.
Proof.
  induction n as [|n IH]; intros results k; cbn [failures]; [cbn; lia|].
  destruct (wrap8 (results k) =? 0); cbn [List.length]; [lia|].
  specialize (IH results (S k)). lia.
Qed.

(** [mqttConnect] on a dropped link, for every behaviour of the broker. *)
Lemma mqttConnect_disconnected (w : World) :
  mqtt_connected w = false ->
  let failed := failures 3 (connect_results w) (connect_count w) in
  let connected := (List.length failed <? 3)%nat in
  exists w' : World,
    mqttConnect w = (if connected then Returned w' else Halted w') /\
    trace w'
    = trace w ++ suspended ++ flat_map backoff failed
        ++ (if connected then resumed else []) /\
    short_suspended w' = negb connected /\
    long_suspended w' = negb connected /\
    mqtt_connected w' = connected.
Proof.
  intros Hoff. cbv zeta. unfold mqttConnect. rewrite Hoff.
  set (w0 := vTaskSuspend processLongActionsTaskHandle
               (vTaskSuspend processShortActionsTaskHandle w)).
  destruct (mqttConnect_loop_spec 3 256 w0 ltac:(lia) ltac:(lia))
    as (w1 & Htr & _ & _ & Hs & Hl & Hc & Hrun).
  change (Z.of_nat 3) with 3 in Hrun. rewrite Hrun.
  change (connect_results w0) with (connect_results w) in *.
  change (connect_count w0) with (connect_count w) in *.
  destruct (List.length (failures 3 (connect_results w) (connect_count w))
            <? 3)%nat.
  - eexists. split; [reflexivity|].
    repeat split; [|exact Hc].
    cbn. rewrite Htr. cbn. rewrite <- !app_assoc. reflexivity.
  - exists w1. split; [reflexivity|].
    repeat split; [|exact Hs|exact Hl|exact Hc].
    rewrite Htr. cbn. rewrite <- !app_assoc. reflexivity.
Qed.

Lemma paused_backoffs (failed : list Z) (tail : list Event) :
  paused_at_connects true true (flat_map backoff failed ++ tail)
  = paused_at_connects true true tail.
Proof. induction failed as [|r failed IH]; [reflexivity | exact IH]. Qed.

Lemma paused_suspended (short long : bool) (tr : list Event) :
  paused_at_connects short long (suspended ++ tr)
  = paused_at_connects true true tr.
Proof. reflexivity. Qed.

(** C6.  On a dropped link every failed connect attempt is followed by a
    disconnect and a sleep of 5000 ms (5 seconds), and the budget of 3 is
    decremented: the procedure returns as soon as an attempt succeeds within
    the first three, and otherwise halts.  After three failures in a row
    the listener is halted and executes nothing more, whatever inputs
    follow: the trace holds exactly three connect attempts of this call. *)
Theorem mqttConnect_retry_exhaustion (w : World) :
  mqtt_connected w = false ->
  let r0 := wrap8 (connect_results w (connect_count w)) in
  let r1 := wrap8 (connect_results w (S (connect_count w))) in
  let r2 := wrap8 (connect_results w (S (S (connect_count w)))) in
  let failed := failures 3 (connect_results w) (connect_count w) in
  exists w' : World,
    trace w'
    = trace w ++ suspended ++ flat_map backoff failed
        ++ (if (List.length failed <? 3)%nat then resumed else []) /\
    mqttConnect w
    = (if (List.length failed <? 3)%nat then Returned w' else Halted w') /\
    (r0 <> 0 -> r1 <> 0 -> r2 <> 0 ->
     failed = [r0; r1; r2] /\
     mqttConnect w = Halted w' /\
     trace w' = trace w ++ suspended ++ backoff r0 ++ backoff r1 ++ backoff r2 /\
     count is_connect (trace w') = (count is_connect (trace w) + 3)%nat /\
     forall (i : IterInput) (rest : list IterInput)
            (action : SubscriptionAction),
       processInputTask (i :: rest) action w = Halted w').
Proof.
  intros Hoff. cbv zeta.
  destruct (mqttConnect_disconnected w Hoff) as (w' & Hrun & Htr & _).
  cbv zeta in Hrun, Htr.
  exists w'. split; [exact Htr|]. split; [exact Hrun|].
  intros H0 H1 H2.
  assert (Hf : failures 3 (connect_results w) (connect_count w)
               = [wrap8 (connect_results w (connect_count w));
                  wrap8 (connect_results w (S (connect_count w)));
                  wrap8 (connect_results w (S (S (connect_count w))))]).
  { cbn [failures].
    apply Z.eqb_neq in H0, H1, H2. now rewrite H0, H1, H2. }
  rewrite Hf in Hrun, Htr. cbn [List.length Nat.ltb Nat.leb] in Hrun, Htr.
  split; [exact Hf|]. split; [exact Hrun|].
  assert (Htr' : trace w'
                 = trace w ++ suspended
                     ++ backoff (wrap8 (connect_results w (connect_count w)))
                     ++ backoff
                          (wrap8 (connect_results w (S (connect_count w))))
                     ++ backoff
                          (wrap8
                             (connect_results w (S (S (connect_count w)))))).
  { rewrite Htr. cbn [flat_map]. now rewrite !app_nil_r. }
  split; [exact Htr'|]. split.
  - rewrite Htr', !count_app. cbn. lia.
  - intros i rest action. cbn [processInputTask].
    unfold processInputTask_iter. now rewrite Hrun.
Qed.

(** C7.  [mqttConnect] does nothing when the link is up.  Otherwise it
    first suspends both workers, then makes its connect attempts, and only
    after an attempt that succeeds does it resume both workers and sleep the
    250 ms settle time; if it halts the workers stay suspended.  Replaying
    the events it adds, from any initial state of the workers, both workers
    are suspended at every connect attempt. *)
Theorem mqttConnect_pauses_workers (w : World) :
  (mqtt_connected w = true -> mqttConnect w = Returned w) /\
  (mqtt_connected w = false ->
   exists (failed : list Z) (w' : World) (evs : list Event),
     trace w' = trace w ++ evs /\
     Forall (fun r => r <> 0) failed /\
     ((mqttConnect w = Returned w' /\
       evs = suspended ++ flat_map backoff failed ++ resumed /\
       short_suspended w' = false /\ long_suspended w' = false)
      \/
      (mqttConnect w = Halted w' /\
       evs = suspended ++ flat_map backoff failed /\
       short_suspended w' = true /\ long_suspended w' = true)) /\
     paused_at_connects (short_suspended w) (long_suspended w) evs = true).
Proof.
  split.
  - intros Hon. unfold mqttConnect. now rewrite Hon.
  - intros Hoff.
    destruct (mqttConnect_disconnected w Hoff)
      as (w' & Hrun & Htr & Hs & Hl & _).
    cbv zeta in Hrun, Htr, Hs, Hl.
    set (failed := failures 3 (connect_results w) (connect_count w)) in *.
    exists failed, w'.
    destruct (List.length failed <? 3)%nat.
    + exists (suspended ++ flat_map backoff failed ++ resumed).
      split; [exact Htr|]. split; [apply failures_nonzero|]. split.
      * left. repeat split; assumption.
      * now rewrite paused_suspended, paused_backoffs.
    + exists (suspended ++ flat_map backoff failed).
      split; [now rewrite Htr, app_nil_r|].
      split; [apply failures_nonzero|]. split.
      * right. repeat split; assumption.
      * rewrite paused_suspended.
        rewrite <- (app_nil_r (flat_map backoff failed)).
        now rewrite paused_backoffs.
Qed.

(** [mqttConnect] always comes to a result. *)
Lemma mqttConnect_total (w : World) : mqttConnect w <> OutOfFuel.
Proof.
  destruct (mqtt_connected w) eqn:Hc.
  - unfold mqttConnect. rewrite Hc. discriminate.
  - destruct (mqttConnect_disconnected w Hc) as (w' & Hrun & _).
    cbv zeta in Hrun. rewrite Hrun.
    destruct (_ <? _)%nat; discriminate.
Qed.

(** ** Listener *)

(** Inputs that are not events of the two recognised subscriptions leave
    the world as it is: nothing is enqueued and no event is added. *)
Lemma poll_loop_unrecognized (inputs : list PollInput) :
  forall (t : Timing) (action : SubscriptionAction) (w : World),
    Forall unrecognized_input inputs ->
    snd (poll_loop inputs t action w) = w.
Proof.
  induction inputs as [|i rest IH]; intros t action w Hall; [reflexivity|].
  inversion Hall as [|? ? Hi Hrest]; subst.
  cbn [poll_loop].
  destruct (elapsed t <? READ_SUBSCRIPTION_TIMEOUT); [|reflexivity].
  unfold unrecognized_input in Hi.
  destruct (sub_in i) as [subscription|]; [|now apply IH].
  unfold on_subscription.
  destruct (sub_id subscription); try discriminate Hi.
  now apply IH.
Qed.

(** C8 (as amended).  For an event of a subscription other than the two
    recognised ones, [setAction] gives the envelope the callback that the
    subscription object itself carries: the envelope is empty when the
    object has none, and populated otherwise.  In both cases the listener
    enqueues nothing: handling the event leaves both queues, and the whole
    world, as they were, and so does any run of the polling loop on events
    that are all unrecognised. *)
Theorem unrecognized_never_enqueued (subscription : SubPtr)
  (action : SubscriptionAction) (w : World) :
  recognized (sub_id subscription) = false ->
  wf_action action ->
  let a := setAction action (Some (sub_obj subscription)) in
  callback a = callback_buffer (sub_obj subscription) /\
  (callback_buffer (sub_obj subscription) = None -> is_empty a) /\
  on_subscription subscription action w = (false, a, w) /\
  (forall (inputs : list PollInput) (t : Timing),
      Forall unrecognized_input inputs ->
      let w' := snd (poll_loop inputs t action w) in
      w' = w /\ shortQ w' = shortQ w /\ longQ w' = longQ w /\
      count is_queue_send (trace w') = count is_queue_send (trace w)).
Proof.
  intros Hid Ha. cbv zeta.
  split; [|split; [|split]].
  - unfold setAction.
    now destruct (callback_buffer (sub_obj subscription)).
  - intros Hnone. now apply setAction_no_callback.
  - unfold on_subscription.
    destruct (sub_id subscription); try discriminate Hid. reflexivity.
  - intros inputs t Hall.
    rewrite (poll_loop_unrecognized inputs t action w Hall).
    repeat split.
Qed.

(** C9.  In the elapsed-time accounting on [uint32_t] samples, a fresh
    sample below the recorded start resets the start to the fresh sample
    and adds nothing; otherwise the start is kept and the exact difference
    is added.  In both cases what is added to the accumulator is between 0
    and the fresh sample: never a wrapped-around difference. *)
Theorem account_no_wraparound (t : Timing) (now : Z) :
  is_uint32 (startTime t) ->
  is_uint32 now ->
  let t' := account t now in
  (now < startTime t -> startTime t' = now /\ increment t now = 0) /\
  (startTime t <= now ->
   startTime t' = startTime t /\ increment t now = now - startTime t) /\
  0 <= increment t now <= now /\
  elapsed t' = wrap32 (elapsed t + increment t now).
Proof.
  unfold is_uint32. intros Hs Hn. cbv zeta.
  unfold increment, account. cbn [startTime endTime elapsed].
  destruct (now <? startTime t) eqn:E.
  - apply Z.ltb_lt in E. rewrite Z.sub_diag.
    change (wrap32 0) with 0.
    repeat split; try lia.
  - apply Z.ltb_ge in E.
    assert (Hw : wrap32 (now - startTime t) = now - startTime t)
      by (unfold wrap32; apply Z.mod_small; lia).
    rewrite Hw. repeat split; try lia.
Qed.

End Properties.

(** Witness of C1 on the command [{ 10 20 30 }]. *)
Lemma setAction_size_bound_witness :
  let a := @setAction sample_config zero_action (Some set_event) in
  callback a = Some cb_setColor /\
  length a = 5 /\
  firstn 5 (data a) = [x7b; x0a; x14; x1e; x7d].
Proof.
  assert (Hws : @wf_subscribe sample_config set_event) by reflexivity.
  assert (Hlen : 0 <= datalen set_event
                 <= Z.of_nat (@SUBSCRIPTIONDATALEN sample_config) - 1)
    by (cbn; lia).
  assert (Hnz : Forall (fun c => c <> x00) (payload set_event))
    by (repeat constructor; discriminate).
  destruct (@setAction_size_bound sample_config sample_ring sample_json
              zero_action set_event cb_setColor Hws eq_refl)
    as (Hc & Hl & _ & Hp).
  cbv zeta. split; [exact Hc|]. split; [exact Hl|].
  exact (Hp Hlen Hnz).
Defined.

(** C1 as stated fails twice on the code: an oversized event with a
    callback gives a populated envelope, and a payload with an inner NUL is
    not copied exactly. *)
Lemma setAction_size_bound_counterexample :
  (Z.of_nat (@SUBSCRIPTIONDATALEN sample_config) < datalen oversized_event /\
   ~ @is_empty (@setAction sample_config zero_action (Some oversized_event)))
  /\
  (datalen nul_event <= Z.of_nat (@SUBSCRIPTIONDATALEN sample_config) - 1 /\
   firstn 3 (data (@setAction sample_config zero_action (Some nul_event)))
   <> payload nul_event).
Proof.
  split; split.
  - cbn; lia.
  - intros (Hcb & _). discriminate Hcb.
  - cbn; lia.
  - vm_compute. discriminate.
Qed.

(** ** The theorems at concrete inputs *)

(** Witness of C2: [{ 10 20 30 }] sets the colour, [{ 10 20 30 1 244 }]
    fades to it in 500. *)
Lemma setColor_dispatch_witness :
  trace (setColor (cfg := sample_config) (json := sample_json)
           (lastread set_event) 5 (sample_world true always_fail))
  = [EvSemaphoreTake true; EvRingSetColor 10 20 30; EvSemaphoreGive;
     EvRingGetColor; EvPublish [x7b; x0a; x14; x1e; x7d]] /\
  trace (setColor (cfg := sample_config) (json := sample_json)
           (lastread fade_event) 7 (sample_world true always_fail))
  = [EvSemaphoreTake true; EvRingFadeColor 10 20 30 500; EvSemaphoreGive;
     EvRingGetColor; EvPublish [x7b; x0a; x14; x1e; x7d]].
Proof.
  split.
  - destruct (setColor_dispatch (cfg := sample_config) (drv := sample_ring)
                (json := sample_json)
                (lastread set_event) 5 (sample_world true always_fail)
                [("r"%string, 10); ("g"%string, 20); ("b"%string, 30)]
                ltac:(cbn; lia) eq_refl eq_refl) as [Hset _].
    exact (proj2 (Hset eq_refl)).
  - destruct (setColor_dispatch (cfg := sample_config) (drv := sample_ring)
                (json := sample_json)
                (lastread fade_event) 7 (sample_world true always_fail)
                [("r"%string, 10); ("g"%string, 20); ("b"%string, 30);
                 ("time"%string, 500)]
                ltac:(cbn; lia) eq_refl eq_refl) as [_ Hfade].
    exact (proj2 (Hfade ltac:(cbn; lia))).
Defined.

(** Witness of C3: the same command with the lock held publishes the
    unchanged colour once. *)
Lemma setColor_status_echo_witness :
  exists attempt : list Event,
    trace (setColor (cfg := sample_config) (json := sample_json)
             (lastread set_event) 5 (sample_world false always_fail))
    = attempt ++ [EvRingGetColor; EvPublish [x7b; x00; x00; x00; x7d]] /\
    count is_mutation attempt = 0%nat.
Proof.
  destruct (setColor_status_echo (cfg := sample_config) (drv := sample_ring)
              (json := sample_json)
              (lastread set_event) 5 (sample_world false always_fail)
              [("r"%string, 10); ("g"%string, 20); ("b"%string, 30)]
              ltac:(cbn; lia) eq_refl)
    as (attempt & status & Htr & Hst & _ & Hmut & Hring).
  exists attempt. split; [|exact Hmut].
  rewrite Htr, Hst, (Hring eq_refl). reflexivity.
Defined.

(** Witness of C4: an empty query while the ring mutex is held. *)
Lemma getColor_unlocked_read_witness :
  trace (getColor (cfg := sample_config) (json := sample_json)
           (lastread query_event) 0 (sample_world false always_fail))
  = [EvRingGetColor; EvPublish [x7b; x00; x00; x00; x7d]].
Proof.
  exact (proj1 (getColor_unlocked_read (cfg := sample_config)
                  (drv := sample_ring) (json := sample_json)
                  (lastread query_event) 0 (sample_world false always_fail)
                  ltac:(cbn; lia))).
Defined.

(** C4 as stated fails on the code: with the ring mutex held the handler
    makes no attempt to take it, and the read is not skipped. *)
Lemma getColor_lock_counterexample :
  let w := sample_world false always_fail in
  let w' := getColor (cfg := sample_config) (json := sample_json)
              (lastread query_event) 0 w in
  ringMutex_free w = false /\
  count is_take (trace w') = 0%nat /\
  count is_ring_read (trace w') <> 0%nat /\
  count is_publish (trace w') = 1%nat.
Proof. cbv zeta. repeat split. discriminate. Qed.

(** Witness of C5: a slow queue holding a command that does not parse,
    then one that does. *)
Lemma malformed_command_skipped_witness :
  let bad := setAction (cfg := sample_config) zero_action (Some bad_event) in
  let good := setAction (cfg := sample_config) zero_action (Some set_event) in
  let w := set_queue longActionsQueue [bad; good]
             (sample_world true always_fail) in
  exists w' : SampleWorld,
    processLongActionsTask_iter (cfg := sample_config) (json := sample_json)
      zero_action w
    = Some (clearAction (cfg := sample_config) bad, w') /\
    ring w' = ring w /\
    trace w' = [EvDelay 50] /\
    longQ w' = [good].
Proof.
  cbv zeta.
  destruct (malformed_command_skipped (cfg := sample_config)
              (drv := sample_ring) (json := sample_json)
              (setAction (cfg := sample_config) zero_action (Some bad_event))
              zero_action
              [setAction (cfg := sample_config) zero_action (Some set_event)]
              (set_queue longActionsQueue
                 [setAction (cfg := sample_config) zero_action
                    (Some bad_event);
                  setAction (cfg := sample_config) zero_action
                    (Some set_event)]
                 (sample_world true always_fail))
              eq_refl eq_refl eq_refl
              ltac:(repeat constructor; discriminate))
    as (w' & Hit & Hring & Htr & _ & Hq & _).
  exists w'. repeat split; assumption.
Defined.

(** Witness of C6: a broker that refuses every attempt. *)
Lemma mqttConnect_retry_exhaustion_witness :
  exists w' : SampleWorld,
    mqttConnect (cfg := sample_config) (sample_world true always_fail)
    = Halted w' /\
    trace w'
    = [EvSuspend processShortActionsTaskHandle;
       EvSuspend processLongActionsTaskHandle;
       EvConnect 4; EvDisconnect; EvDelay 5000;
       EvConnect 4; EvDisconnect; EvDelay 5000;
       EvConnect 4; EvDisconnect; EvDelay 5000].
Proof.
  destruct (mqttConnect_retry_exhaustion (cfg := sample_config)
              (drv := sample_ring)
              (sample_world true always_fail) eq_refl)
    as (w' & _ & _ & H3).
  destruct (H3 ltac:(discriminate) ltac:(discriminate) ltac:(discriminate))
    as (_ & Hrun & Htr & _).
  exists w'. split; [exact Hrun | exact Htr].
Defined.

(** Witness of C7: a broker that accepts the third attempt. *)
Lemma mqttConnect_pauses_workers_witness :
  exists (failed : list Z) (w' : SampleWorld) (evs : list Event),
    trace w' = evs /\
    Forall (fun r => r <> 0) failed /\
    ((mqttConnect (cfg := sample_config) (sample_world true fail_twice)
      = Returned w' /\
      evs = suspended
              ++ flat_map (backoff (cfg := sample_config)) failed
              ++ resumed (cfg := sample_config) /\
      short_suspended w' = false /\ long_suspended w' = false)
     \/
     (mqttConnect (cfg := sample_config) (sample_world true fail_twice)
      = Halted w' /\
      evs = suspended
              ++ flat_map (backoff (cfg := sample_config)) failed /\
      short_suspended w' = true /\ long_suspended w' = true)) /\
    paused_at_connects false false evs = true.
Proof.
  exact (proj2 (mqttConnect_pauses_workers (cfg := sample_config)
                  (drv := sample_ring)
                  (sample_world true fail_twice)) eq_refl).
Defined.

(** Witness of C8: a third subscription object that carries a callback. *)
Lemma unrecognized_never_enqueued_witness :
  let p := {| sub_id := otherSub 7; sub_obj := query_event |} in
  let w := sample_world true always_fail in
  let a := setAction (cfg := sample_config) zero_action (Some query_event) in
  callback a = Some cb_getColor /\
  on_subscription (cfg := sample_config) p zero_action w = (false, a, w).
Proof.
  cbv zeta.
  destruct (unrecognized_never_enqueued (cfg := sample_config)
              (drv := sample_ring)
              {| sub_id := otherSub 7; sub_obj := query_event |}
              zero_action (sample_world true always_fail)
              eq_refl eq_refl)
    as (Hcb & _ & Hon & _).
  split; [exact Hcb | exact Hon].
Defined.

(** C8 as stated fails on the code: the envelope built for an unrecognised
    subscription that carries a callback is not empty. *)
Lemma unrecognized_populated_counterexample :
  recognized (otherSub 7) = false /\
  callback (setAction (cfg := sample_config) zero_action (Some query_event))
  <> None /\
  ~ is_empty (setAction (cfg := sample_config) zero_action (Some query_event)).
Proof.
  split; [reflexivity|]. split; [discriminate|].
  intros (Hcb & _). discriminate Hcb.
Qed.

(** Witness of C9: the clock wrapped from near its top to 5. *)
Lemma account_no_wraparound_witness :
  let t := {| startTime := 4294967000; endTime := 0; elapsed := 10 |} in
  startTime (account t 5) = 5 /\ increment t 5 = 0 /\
  elapsed (account t 5) = 10.
Proof.
  cbv zeta.
  destruct (account_no_wraparound
              {| startTime := 4294967000; endTime := 0; elapsed := 10 |} 5
              ltac:(unfold is_uint32; cbn; lia)
              ltac:(unfold is_uint32; cbn; lia))
    as (Hwrap & _ & _ & Hel).
  destruct (Hwrap ltac:(cbn; lia)) as (Hs & Hi).
  split; [exact Hs|]. split; [exact Hi|].
  rewrite Hel, Hi. reflexivity.
Defined.

(** Witness of C10: a command payload that does not parse. *)
Lemma setColor_malformed_no_status_witness :
  setColor (cfg := sample_config) (json := sample_json)
    (lastread bad_event) 4 (sample_world true always_fail)
  = sample_world true always_fail.
Proof.
  exact (proj1 (setColor_malformed_no_status (cfg := sample_config)
                  (drv := sample_ring) (json := sample_json)
                  (lastread bad_event) 4 (sample_world true always_fail)
                  eq_refl)).
Defined.


(** * Further properties of the code *)

(** ** Envelope construction *)

Lemma skipn_repeat (c : byte) (k n : nat) :
  skipn k (repeat c n) = repeat c (n - k).
Proof.
  revert n; induction k as [|k IH]; intros n.
  - now rewrite Nat.sub_0_r.
  - destruct n as [|n]; [reflexivity|]. cbn. apply IH.
Qed.

Lemma cstring_strncpy_src (n : nat) :
  forall (src tail : list byte),
    cstring (strncpy_src src n ++ x00 :: tail) = firstn n (cstring src).
Proof.
  induction n as [|n IH]; intros src tail; [reflexivity|].
  destruct src as [|c src']; [reflexivity|].
  cbn [strncpy_src cstring].
  destruct (Byte.eqb c x00) eqn:E; [reflexivity|].
  cbn [app cstring firstn]. rewrite E. now rewrite IH.
Qed.

Section MoreProperties.

Context {cfg : Config} {drv : NeoPixelRing} {json : ArduinoJson}.

Lemma clearAction_data (a : SubscriptionAction) :
  wf_action a -> data (clearAction a) = repeat x00 SUBSCRIPTIONDATALEN.
Proof. intros H. cbn. now apply memset_whole. Qed.

(** The buffer of a built envelope, for a subscription with a callback. *)
Lemma setAction_data (a : SubscriptionAction) (sub : Adafruit_MQTT_Subscribe)
  (cb : SubscribeCallbackBufferType) :
  wf_action a -> callback_buffer sub = Some cb ->
  data (setAction a (Some sub))
  = strncpy_src (lastread sub) (SUBSCRIPTIONDATALEN - 1)
      ++ repeat x00 (SUBSCRIPTIONDATALEN - (SUBSCRIPTIONDATALEN - 1)).
Proof.
  intros Ha Hcb. unfold setAction. rewrite Hcb.
  cbn [data]. unfold strncpy.
  now rewrite (clearAction_data a Ha), skipn_repeat.
Qed.

(** X1.  [setAction] starts by clearing: the envelope it builds does not
    depend on what the envelope held before. *)
Theorem setAction_fresh (a a' : SubscriptionAction)
  (subscription : option Adafruit_MQTT_Subscribe) :
  wf_action a -> wf_action a' ->
  setAction a subscription = setAction a' subscription.
Proof.
  intros Ha Ha'.
  assert (E : clearAction a = clearAction a').
  { unfold clearAction. f_equal.
    now rewrite !memset_whole by assumption. }
  unfold setAction. now rewrite E.
Qed.

(** X2.  Whatever the event, the buffer of the built envelope keeps the
    size of the array, and its last byte is NUL: the copy never overflows
    and the text handed to the callbacks is always terminated. *)
Theorem setAction_terminated (a : SubscriptionAction)
  (subscription : option Adafruit_MQTT_Subscribe) :
  wf_action a -> (0 < SUBSCRIPTIONDATALEN)%nat ->
  wf_action (setAction a subscription) /\
  last (data (setAction a subscription)) x01 = x00.
Proof.
  intros Ha Hpos.
  assert (Hz : wf_action (clearAction a) /\
               last (data (clearAction a)) x01 = x00).
  { unfold wf_action. rewrite (clearAction_data a Ha), repeat_length.
    split; [reflexivity|].
    destruct SUBSCRIPTIONDATALEN as [|n]; [lia|].
    cbn [repeat]. rewrite repeat_cons. apply last_last. }
  destruct subscription as [sub|]; [|exact Hz].
  destruct (callback_buffer sub) as [cb|] eqn:Hcb.
  - unfold wf_action. rewrite (setAction_data a sub cb Ha Hcb).
    replace (SUBSCRIPTIONDATALEN - (SUBSCRIPTIONDATALEN - 1))%nat
      with 1%nat by lia.
    split.
    + rewrite length_app, strncpy_src_length. cbn. lia.
    + apply last_last.
  - unfold setAction. rewrite Hcb. exact Hz.
Qed.

(** X3.  Read as C strings, the buffer of the built envelope holds the
    text of the event buffer cut to capacity - 1 characters: this is the
    text [setColor] gives to the JSON parser. *)
Theorem setAction_cstring (a : SubscriptionAction)
  (sub : Adafruit_MQTT_Subscribe) (cb : SubscribeCallbackBufferType) :
  wf_action a -> callback_buffer sub = Some cb ->
  (0 < SUBSCRIPTIONDATALEN)%nat ->
  cstring (data (setAction a (Some sub)))
  = firstn (SUBSCRIPTIONDATALEN - 1) (cstring (lastread sub)).
Proof.
  intros Ha Hcb Hpos. rewrite (setAction_data a sub cb Ha Hcb).
  replace (SUBSCRIPTIONDATALEN - (SUBSCRIPTIONDATALEN - 1))%nat
    with 1%nat by lia.
  apply cstring_strncpy_src.
Qed.

End MoreProperties.

(** Witness of X1: an envelope that still holds a command, and a zeroed
    one, give the same envelope for a query. *)
Lemma setAction_fresh_witness :
  setAction (cfg := sample_config)
    (setAction (cfg := sample_config) zero_action (Some set_event))
    (Some query_event)
  = setAction (cfg := sample_config) zero_action (Some query_event).
Proof.
  exact (setAction_fresh (cfg := sample_config)
           (setAction (cfg := sample_config) zero_action (Some set_event))
           zero_action (Some query_event) eq_refl eq_refl).
Defined.

(** Witness of X2 on the event whose buffer holds no NUL at all. *)
Lemma setAction_terminated_witness :
  let a := setAction (cfg := sample_config) zero_action
             (Some oversized_event) in
  List.length (data a) = 100%nat /\ last (data a) x01 = x00.
Proof.
  exact (setAction_terminated (cfg := sample_config) zero_action
           (Some oversized_event) eq_refl ltac:(cbn; lia)).
Defined.

(** Witness of X3 on the payload with an inner NUL. *)
Lemma setAction_cstring_witness :
  cstring (data (setAction (cfg := sample_config) zero_action
                   (Some nul_event)))
  = [x61].
Proof.
  exact (setAction_cstring (cfg := sample_config) zero_action nul_event
           cb_setColor eq_refl eq_refl ltac:(cbn; lia)).
Defined.

(** ** What the callbacks leave alone *)

Section CallbackProperties.

Context {cfg : Config} {drv : NeoPixelRing} {json : ArduinoJson}.

(** X4.  A callback returns with the ring mutex as it found it (free if it
    was free: every take is followed by a give; held if another task held
    it), and never touches the link, the workers' run state or the queues. *)
Theorem invoke_same_system (cb : SubscribeCallbackBufferType)
  (buf : list byte) (len : Z) (w : World) :
  same_system w (invoke cb buf len w).
Proof.
  unfold same_system.
  destruct cb; cbn [invoke]; unfold getColor, setColor;
    destruct (Z.of_nat SUBSCRIPTIONDATALEN <? len);
    try (repeat split; fail).
  destruct (deserializeJson buf) as [doc|]; [|repeat split].
  unfold xSemaphoreTake.
  destruct (ringMutex_free w) eqn:Hfree;
    [destruct (negb (as_uint16 doc "time" =? 0))|];
    cbn; rewrite ?Hfree; repeat split.
Qed.

(** X5.  The events a callback adds respect the lock: the ring is mutated
    only between a successful take and the give that follows, and the
    callback ends without holding the mutex.  When another task holds the
    mutex the ring is not mutated at all, and [getColor] never mutates it. *)
Theorem invoke_lock_discipline (cb : SubscribeCallbackBufferType)
  (buf : list byte) (len : Z) (w : World) :
  exists evs : list Event,
    trace (invoke cb buf len w) = trace w ++ evs /\
    lock_replay false evs = Some false /\
    (ringMutex_free w = false ->
     ring (invoke cb buf len w) = ring w /\ count is_mutation evs = 0%nat) /\
    (cb = cb_getColor ->
     ring (invoke cb buf len w) = ring w /\ count is_mutation evs = 0%nat).
Proof.
  assert (Hnil : forall w0 : World,
             exists evs : list Event,
               trace w0 = trace w0 ++ evs /\
               lock_replay false evs = Some false /\
               (ringMutex_free w0 = false ->
                ring w0 = ring w0 /\ count is_mutation evs = 0%nat) /\
               (cb = cb_getColor ->
                ring w0 = ring w0 /\ count is_mutation evs = 0%nat)).
  { intros w0. exists []. rewrite app_nil_r. repeat split. }
  destruct cb; cbn [invoke].
  - unfold getColor.
    destruct (Z.of_nat SUBSCRIPTIONDATALEN <? len); [apply Hnil|].
    eexists. split; [apply publishRgbStatus_trace|]. repeat split.
  - unfold setColor.
    destruct (Z.of_nat SUBSCRIPTIONDATALEN <? len) eqn:Hlen; [apply Hnil|].
    destruct (deserializeJson buf) as [doc|] eqn:Hdoc; [|apply Hnil].
    apply Z.ltb_ge in Hlen.
    destruct (setColor_parsed buf len w doc Hlen Hdoc) as [Hring Htr].
    cbv zeta in Hring, Htr.
    unfold setColor in Hring, Htr.
    replace (Z.of_nat SUBSCRIPTIONDATALEN <? len) with false in Hring, Htr
      by (symmetry; apply Z.ltb_ge; lia).
    rewrite Hdoc in Hring, Htr.
    eexists. split; [exact Htr|].
    destruct (ringMutex_free w).
    + destruct (as_uint16 doc "time" =? 0);
        (split; [reflexivity|]); split; discriminate.
    + split; [reflexivity|]. split; [|discriminate].
      intros _. split; [exact Hring | reflexivity].
Qed.

End CallbackProperties.

(** ** Listener: routing, rate and invariants *)

Lemma count_snoc (p : Event -> bool) (l : list Event) (e : Event) :
  count p (l ++ [e]) = (count p l + (if p e then 1 else 0))%nat.
Proof. rewrite count_app. unfold count. cbn. now destruct (p e). Qed.

Section ListenerProperties.

Context {cfg : Config} {drv : NeoPixelRing}.

Lemma same_device_refl (w : World) : same_device w w.
Proof. repeat split. Qed.

Lemma same_device_trans (w1 w2 w3 : World) :
  same_device w1 w2 -> same_device w2 w3 -> same_device w1 w3.
Proof.
  unfold same_device.
  intros (A1 & A2 & A3 & A4 & A5) (B1 & B2 & B3 & B4 & B5).
  repeat split; congruence.
Qed.

(** Emitting an event that is no driver call and no publish. *)
Lemma same_device_emit (e : Event) (w w' : World) :
  is_mutation e = false -> is_ring_read e = false -> is_publish e = false ->
  same_device w w' -> same_device w (emit e w').
Proof.
  unfold same_device. intros E1 E2 E3 (A1 & A2 & A3 & A4 & A5).
  rewrite trace_emit, !count_snoc, E1, E2, E3.
  repeat split; try assumption; lia.
Qed.

Lemma xQueueSend_device (q : Queue) (a : SubscriptionAction) (w : World) :
  same_device w (xQueueSend q a w).
Proof.
  unfold xQueueSend.
  destruct (List.length (queue_of q w) <? queue_capacity q)%nat;
    apply same_device_emit; try reflexivity.
  - destruct q; repeat split.
  - apply same_device_refl.
Qed.

Lemma setAction_wf (a : SubscriptionAction)
  (subscription : option Adafruit_MQTT_Subscribe) :
  wf_action a -> wf_action (setAction a subscription).
Proof.
  intros Ha.
  assert (Hz : wf_action (clearAction a)).
  { unfold wf_action. cbn. rewrite memset_whole by exact Ha.
    apply repeat_length. }
  destruct subscription as [sub|]; [|exact Hz].
  unfold setAction.
  destruct (callback_buffer sub) as [cb|]; [|exact Hz].
  unfold wf_action. cbn. unfold strncpy.
  rewrite memset_whole by exact Ha.
  rewrite length_app, strncpy_src_length, length_skipn, repeat_length. lia.
Qed.

(** X6.  An event of a recognised subscription that carries a callback is
    sent to the queue of that subscription and to no other: queries to the
    short queue, commands to the long one.  The envelope is appended behind
    the ones waiting; if the queue is full it is dropped and the queue is
    unchanged.  In both cases the listener then sleeps 250 ms and leaves the
    polling loop, and the ring is not touched. *)
Theorem on_subscription_routing (subscription : SubPtr) (q : Queue)
  (cb : SubscribeCallbackBufferType) (action : SubscriptionAction)
  (w : World) :
  route (sub_id subscription) = Some q ->
  callback_buffer (sub_obj subscription) = Some cb ->
  let a := setAction action (Some (sub_obj subscription)) in
  let sent := (List.length (queue_of q w) <? queue_capacity q)%nat in
  exists w' : World,
    on_subscription subscription action w = (true, a, w') /\
    queue_of q w' = (if sent then queue_of q w ++ [a] else queue_of q w) /\
    queue_of (other_queue q) w' = queue_of (other_queue q) w /\
    trace w'
    = trace w ++ [EvQueueSend q sent; EvDelay (250 / portTICK_PERIOD_MS)] /\
    same_device w w'.
Proof.
  intros Hroute Hcb. cbv zeta.
  assert (Ha : callback (setAction action (Some (sub_obj subscription)))
               = Some cb).
  { unfold setAction. now rewrite Hcb. }
  unfold on_subscription.
  destruct (sub_id subscription); cbn [route] in Hroute;
    inversion Hroute; subst q; rewrite Ha;
    (eexists; split; [reflexivity|]);
    (split; [|split; [|split]]).
  all: try (apply same_device_emit; try reflexivity;
            apply xQueueSend_device).
  all: unfold xQueueSend; cbn [queue_of other_queue queue_capacity].
  all: match goal with
       | |- context [(?n <? ?c)%nat] => destruct (n <? c)%nat
       end.
  all: cbn; rewrite <- ?app_assoc; reflexivity.
Qed.

(** What handling one event can do to the world. *)
Lemma on_subscription_step (subscription : SubPtr)
  (action : SubscriptionAction) (w : World) :
  let r := on_subscription subscription action w in
  (fst (fst r) = false -> snd r = w) /\
  (count is_queue_send (trace (snd r))
   <= count is_queue_send (trace w) + 1)%nat /\
  (List.length (shortQ (snd r)) + List.length (longQ (snd r))
   <= List.length (shortQ w) + List.length (longQ w) + 1)%nat /\
  same_device w (snd r).
Proof.
  cbv zeta. unfold on_subscription.
  destruct (sub_id subscription);
    destruct (callback (setAction action (Some (sub_obj subscription))));
    cbn [fst snd];
    try (split; [reflexivity + discriminate|];
         split; [lia|]; split; [lia|]; apply same_device_refl).
  all: split; [discriminate|].
  all: split; [|split;
                 [|apply same_device_emit; try reflexivity;
                   apply xQueueSend_device]].
  all: unfold xQueueSend; cbn [queue_of queue_capacity].
  all: match goal with
       | |- context [(?n <? ?c)%nat] => destruct (n <? c)%nat
       end.
  all: unfold vTaskDelay; rewrite ?trace_emit, ?count_snoc.
  all: cbn [trace shortQ longQ emit set_queue is_queue_send].
  all: rewrite ?length_app; cbn [List.length]; lia.
Qed.

Lemma poll_loop_bound (inputs : list PollInput) :
  forall (t : Timing) (action : SubscriptionAction) (w : World),
    let w' := snd (poll_loop inputs t action w) in
    (count is_queue_send (trace w')
     <= count is_queue_send (trace w) + 1)%nat /\
    (List.length (shortQ w') + List.length (longQ w')
     <= List.length (shortQ w) + List.length (longQ w) + 1)%nat /\
    same_device w w'.
Proof.
  assert (Hsame : forall w : World,
             (count is_queue_send (trace w)
              <= count is_queue_send (trace w) + 1)%nat /\
             (List.length (shortQ w) + List.length (longQ w)
              <= List.length (shortQ w) + List.length (longQ w) + 1)%nat /\
             same_device w w).
  { intros w. split; [lia|]. split; [lia|]. apply same_device_refl. }
  induction inputs as [|i rest IH]; intros t action w; cbv zeta;
    [apply Hsame|].
  cbn [poll_loop].
  destruct (elapsed t <? READ_SUBSCRIPTION_TIMEOUT); [|apply Hsame].
  destruct (sub_in i) as [subscription|]; [|apply IH].
  pose proof (on_subscription_step subscription action w) as Hstep.
  cbv zeta in Hstep.
  destruct (on_subscription subscription action w) as [[brk a'] w1].
  cbn [fst snd] in Hstep. destruct Hstep as (Hw & Hstep).
  destruct brk; [exact Hstep|].
  rewrite (Hw eq_refl). apply IH.
Qed.

(** X7.  One run of the polling loop makes at most one attempt to enqueue
    and so adds at most one envelope to the two queues together, however
    many events the transport offers; and it never touches the ring. *)
Theorem poll_loop_single_dispatch (inputs : list PollInput) (t : Timing)
  (action : SubscriptionAction) (w : World) :
  let w' := snd (poll_loop inputs t action w) in
  (count is_queue_send (trace w') <= count is_queue_send (trace w) + 1)%nat /\
  (List.length (shortQ w') + List.length (longQ w')
   <= List.length (shortQ w) + List.length (longQ w) + 1)%nat /\
  same_device w w'.
Proof. apply poll_loop_bound. Qed.

End ListenerProperties.

(** Witness of X6: a command arriving while the long queue already holds
    four envelopes is dropped. *)
Lemma on_subscription_routing_witness :
  let a := setAction (cfg := sample_config) zero_action (Some set_event) in
  let w := set_queue longActionsQueue [a; a; a; a]
             (sample_world true always_fail) in
  exists w' : SampleWorld,
    on_subscription (cfg := sample_config)
      {| sub_id := setColorSub; sub_obj := set_event |} zero_action w
    = (true, a, w') /\
    longQ w' = [a; a; a; a] /\
    shortQ w' = [] /\
    trace w' = [EvQueueSend longActionsQueue false; EvDelay 250].
Proof.
  cbv zeta.
  destruct (on_subscription_routing (cfg := sample_config)
              (drv := sample_ring)
              {| sub_id := setColorSub; sub_obj := set_event |}
              longActionsQueue cb_setColor zero_action
              (set_queue longActionsQueue
                 (repeat (setAction (cfg := sample_config) zero_action
                            (Some set_event)) 4)
                 (sample_world true always_fail))
              eq_refl eq_refl)
    as (w' & Hon & Hq & Ho & Htr & _).
  exists w'. split; [exact Hon|]. split; [exact Hq|].
  split; [exact Ho | exact Htr].
Defined.

(** ** Connection procedure and listener loop *)

Section ConnectionProperties.

Context {cfg : Config} {drv : NeoPixelRing}.

Ltac device_frame :=
  unfold same_device, mqtt_connect, mqtt_disconnect, vTaskDelay,
    vTaskSuspend, vTaskResume;
  cbn [snd ring ringMutex_free shortQ longQ trace emit set_link
         set_suspended];
  rewrite ?count_snoc;
  cbn [is_mutation is_ring_read is_publish];
  repeat split; lia.

Lemma mqttConnect_loop_frame (fuel : nat) :
  forall (retries : Z) (w : World),
    match mqttConnect_loop fuel retries w with
    | Returned w' | Halted w' =>
        shortQ w' = shortQ w /\ longQ w' = longQ w /\ same_device w w'
    | OutOfFuel => True
    end.
Proof.
  induction fuel as [|fuel IH]; intros retries w; [exact I|].
  rewrite mqttConnect_loop_eq. cbv zeta.
  set (w2 := vTaskDelay (5000 / portTICK_PERIOD_MS)
               (mqtt_disconnect (snd (mqtt_connect w)))).
  assert (H2 : shortQ w2 = shortQ w /\ longQ w2 = longQ w /\
               same_device w w2).
  { subst w2. split; [reflexivity|]. split; [reflexivity|]. device_frame. }
  destruct (wrap8 (connect_results w (connect_count w)) =? 0).
  - split; [reflexivity|]. split; [reflexivity|]. device_frame.
  - destruct (wrap8 (retries - 1) =? 0); [exact H2|].
    specialize (IH (wrap8 (retries - 1)) w2).
    destruct H2 as (S2 & L2 & D2).
    destruct (mqttConnect_loop fuel (wrap8 (retries - 1)) w2)
      as [w'|w'|]; [| |exact I];
      destruct IH as (S' & L' & D');
      (split; [congruence|]); (split; [congruence|]);
      exact (same_device_trans w w2 w' D2 D').
Qed.

Lemma mqttConnect_frame (w : World) :
  match mqttConnect w with
  | Returned w' | Halted w' =>
      shortQ w' = shortQ w /\ longQ w' = longQ w /\ same_device w w'
  | OutOfFuel => False
  end.
Proof.
  pose proof (mqttConnect_total w) as Htotal.
  unfold mqttConnect in *.
  destruct (mqtt_connected w).
  - split; [reflexivity|]. split; [reflexivity|]. apply same_device_refl.
  - set (w0 := vTaskSuspend processLongActionsTaskHandle
                 (vTaskSuspend processShortActionsTaskHandle w)) in *.
    assert (H0 : same_device w w0) by (subst w0; device_frame).
    pose proof (mqttConnect_loop_frame 256 3 w0) as Hloop.
    destruct (mqttConnect_loop 256 3 w0) as [w1|w1|];
      [| |now elim Htotal];
      destruct Hloop as (S1 & L1 & D1).
    + split; [exact S1|]. split; [exact L1|].
      apply (same_device_trans w w1); [exact (same_device_trans _ _ _ H0 D1)|].
      device_frame.
    + split; [exact S1|]. split; [exact L1|].
      exact (same_device_trans _ _ _ H0 D1).
Qed.


Lemma count_backoffs (failed : list Z) :
  count is_connect (flat_map backoff failed) = List.length failed.
Proof.
  induction failed as [|r failed IH]; [reflexivity|].
  cbn [flat_map]. rewrite count_app, IH. reflexivity.
Qed.

(** X9.  One call of [mqttConnect] makes at most three connect attempts,
    whatever the broker answers.  It returns only with the link up, and it
    halts only after exactly three attempts, with the link down and both
    workers left suspended. *)
Theorem mqttConnect_bounded (w : World) :
  match mqttConnect w with
  | Returned w' =>
      (count is_connect (trace w') <= count is_connect (trace w) + 3)%nat /\
      mqtt_connected w' = true
  | Halted w' =>
      count is_connect (trace w') = (count is_connect (trace w) + 3)%nat /\
      mqtt_connected w' = false /\
      short_suspended w' = true /\ long_suspended w' = true
  | OutOfFuel => False
  end.
Proof.
  destruct (mqtt_connected w) eqn:Hc.
  - unfold mqttConnect. rewrite Hc. split; [lia | exact Hc].
  - destruct (mqttConnect_disconnected w Hc)
      as (w' & Hrun & Htr & Hs & Hl & Hon).
    cbv zeta in Hrun, Htr, Hs, Hl, Hon.
    pose proof (failures_length 3 (connect_results w) (connect_count w))
      as Hlen.
    set (failed := failures 3 (connect_results w) (connect_count w)) in *.
    rewrite Hrun.
    destruct (List.length failed <? 3)%nat eqn:E.
    + apply Nat.ltb_lt in E. split; [|exact Hon].
      rewrite Htr, !count_app, count_backoffs.
      change (count is_connect suspended) with 0%nat.
      change (count is_connect resumed) with 1%nat. lia.
    + apply Nat.ltb_ge in E. split; [|now repeat split].
      rewrite Htr, !count_app, count_backoffs.
      change (count is_connect suspended) with 0%nat.
      change (count is_connect []) with 0%nat. lia.
Qed.

Lemma xQueueSend_ok (q : Queue) (a : SubscriptionAction) (w : World) :
  queues_ok w -> queued_ok a -> queues_ok (xQueueSend q a w).
Proof.
  unfold queues_ok, queue_ok, xQueueSend.
  intros ((Fs & Ls) & (Fl & Ll)) Ha.
  destruct (List.length (queue_of q w) <? queue_capacity q)%nat eqn:E;
    [|now repeat split].
  apply Nat.ltb_lt in E.
  destruct q; cbn [queue_of queue_capacity] in E;
    cbn [shortQ longQ emit set_queue]; repeat split; try assumption.
  - apply Forall_app. split; [exact Fs|]. now constructor.
  - rewrite length_app. cbn [List.length queue_capacity queue_of] in *. lia.
  - apply Forall_app. split; [exact Fl|]. now constructor.
  - rewrite length_app. cbn [List.length queue_capacity queue_of] in *. lia.
Qed.

Lemma on_subscription_ok (subscription : SubPtr)
  (action : SubscriptionAction) (w : World) :
  queues_ok w -> wf_action action ->
  queues_ok (snd (on_subscription subscription action w)) /\
  wf_action (snd (fst (on_subscription subscription action w))).
Proof.
  intros Hq Ha.
  pose proof (setAction_wf action (Some (sub_obj subscription)) Ha) as Hwf.
  unfold on_subscription.
  destruct (sub_id subscription);
    destruct (callback (setAction action (Some (sub_obj subscription))))
      eqn:Ecb;
    cbn [fst snd]; (split; [|exact Hwf]); try exact Hq.
  all: apply (xQueueSend_ok _ _ w Hq).
  all: split; [unfold has_callback; rewrite Ecb; discriminate | exact Hwf].
Qed.

Lemma poll_loop_ok (inputs : list PollInput) :
  forall (t : Timing) (action : SubscriptionAction) (w : World),
    queues_ok w -> wf_action action ->
    queues_ok (snd (poll_loop inputs t action w)) /\
    wf_action (snd (fst (poll_loop inputs t action w))).
Proof.
  induction inputs as [|i rest IH]; intros t action w Hq Ha; [now split|].
  cbn [poll_loop].
  destruct (elapsed t <? READ_SUBSCRIPTION_TIMEOUT); [|now split].
  destruct (sub_in i) as [subscription|]; [|now apply IH].
  pose proof (on_subscription_ok subscription action w Hq Ha) as Hstep.
  destruct (on_subscription subscription action w) as [[brk a'] w1].
  cbn [fst snd] in Hstep. destruct Hstep as (Hq1 & Ha1).
  destruct brk; [now split | now apply IH].
Qed.

(** X10.  However long the listener runs and whatever the transport and
    the broker do, every envelope in a queue has a callback and a buffer of
    the size of the array, no queue is longer than its capacity (2 and 4),
    and the listener has made no driver call, taken no lock and published
    nothing.  The listener always comes to a result. *)
Theorem processInputTask_invariant (inputs : list IterInput) :
  forall (action : SubscriptionAction) (w : World),
    queues_ok w -> wf_action action ->
    match processInputTask inputs action w with
    | Returned (action', w') =>
        queues_ok w' /\ wf_action action' /\ same_device w w'
    | Halted w' => queues_ok w' /\ same_device w w'
    | OutOfFuel => False
    end.
Proof.
  induction inputs as [|i rest IH]; intros action w Hq Ha.
  - cbn. split; [exact Hq|]. split; [exact Ha | apply same_device_refl].
  - cbn [processInputTask]. unfold processInputTask_iter.
    pose proof (mqttConnect_frame w) as Hconn.
    destruct (mqttConnect w) as [w1|w1|]; [| |exact Hconn];
      destruct Hconn as (S1 & L1 & D1).
    + assert (Hq1 : queues_ok w1)
        by (unfold queues_ok in *; now rewrite S1, L1).
      set (t := {| startTime := start_millis i; endTime := 0;
                   elapsed := 0 |}).
      pose proof (poll_loop_ok (polls i) t action w1 Hq1 Ha) as (Hq2 & Ha2).
      pose proof (poll_loop_bound (polls i) t action w1)
        as (_ & _ & D2).
      cbv zeta in D2.
      destruct (poll_loop (polls i) t action w1) as [[t' a2] w2].
      cbn [fst snd] in Hq2, Ha2, D2.
      specialize (IH a2 w2 Hq2 Ha2).
      pose proof (same_device_trans _ _ _ D1 D2) as D12.
      destruct (processInputTask rest a2 w2) as [[a3 w3]|w3|];
        [| |exact IH].
      * destruct IH as (Hq3 & Ha3 & D3).
        split; [exact Hq3|]. split; [exact Ha3|].
        exact (same_device_trans _ _ _ D12 D3).
      * destruct IH as (Hq3 & D3).
        split; [exact Hq3|]. exact (same_device_trans _ _ _ D12 D3).
    + split; [|exact D1].
      unfold queues_ok in *. now rewrite S1, L1.
Qed.

End ConnectionProperties.

(** ** Worker loops and the elapsed-time accumulator *)

Lemma skipn_tl {A : Type} (n : nat) (l : list A) :
  skipn n (tl l) = skipn (S n) l.
Proof. destruct l; [now rewrite skipn_nil | reflexivity]. Qed.

Lemma elapsed_sum_nonneg (start : Z) (samples : list Z) :
  Forall (fun now => start <= now < 2 ^ 32) samples ->
  0 <= elapsed_sum start samples.
Proof.
  induction 1 as [|now samples Hnow _ IH]; cbn [elapsed_sum fold_right].
  - lia.
  - unfold elapsed_sum in IH. lia.
Qed.

Section WorkerProperties.

Context {cfg : Config} {drv : NeoPixelRing} {json : ArduinoJson}.

Lemma queues_ok_queue_of (w : World) :
  queues_ok w <-> (forall q : Queue, queue_ok q (queue_of q w)).
Proof.
  split.
  - intros (Hs & Hl) q. now destruct q.
  - intros H. split; [apply (H shortActionsQueue) | apply (H longActionsQueue)].
Qed.

(** One turn of a worker on queues that satisfy the invariant. *)
Lemma worker_iter_step (q : Queue) (period : Z)
  (action : SubscriptionAction) (w : World) :
  queues_ok w ->
  exists (action' : SubscriptionAction) (w' : World),
    worker_iter q period action w = Some (action', w') /\
    queue_of q w' = tl (queue_of q w) /\
    queue_of (other_queue q) w' = queue_of (other_queue q) w /\
    queues_ok w' /\
    (is_empty action \/ queue_of q w <> [] -> is_empty action').
Proof.
  intros Hok. pose proof (proj1 (queues_ok_queue_of w) Hok) as Hall.
  unfold worker_iter, xQueueReceive.
  destruct (queue_of q w) as [|a rest] eqn:Eq.
  - exists action, (vTaskDelay (period / portTICK_PERIOD_MS) w).
    split; [reflexivity|].
    split; [destruct q; exact Eq|].
    split; [now destruct q|].
    split; [exact Hok|].
    intros [He|Hne]; [exact He | now elim Hne].
  - destruct (Hall q) as (Fq & Lq). rewrite Eq in Fq, Lq.
    inversion Fq as [|? ? (Hcb & Hwf) Frest]; subst.
    destruct (callback a) as [cb|] eqn:Ecb; [|now elim Hcb].
    set (w' := vTaskDelay (period / portTICK_PERIOD_MS)
                 (invoke cb (data a) (length a) (set_queue q rest w))).
    assert (Hq : forall q' : Queue,
               queue_of q' w' = queue_of q' (set_queue q rest w)).
    { intros q'. transitivity
        (queue_of q' (invoke cb (data a) (length a) (set_queue q rest w))).
      - now destruct q'.
      - apply invoke_queues. }
    exists (clearAction a), w'.
    split; [reflexivity|].
    split; [rewrite Hq; now destruct q|].
    split; [rewrite Hq; now destruct q|].
    split.
    + apply queues_ok_queue_of. intros q'. rewrite Hq.
      destruct q, q'; cbn [queue_of set_queue shortQ longQ];
        try apply (Hall shortActionsQueue);
        try apply (Hall longActionsQueue);
        (split; [exact Frest | cbn [List.length] in Lq; lia]).
    + intros _. now apply clearAction_empty.
Qed.

(** X11.  A worker whose queues satisfy the listener's invariant never
    calls a null pointer.  In [n] turns it removes the first [n] envelopes
    of its own queue, in order, and leaves the other queue alone; and once
    it has served an envelope its local copy is cleared: no callback, zero
    length, buffer all zero. *)
Theorem worker_run_drains (q : Queue) (period : Z) (n : nat) :
  forall (action : SubscriptionAction) (w : World),
    queues_ok w ->
    exists (action' : SubscriptionAction) (w' : World),
      worker_run q period n action w = Some (action', w') /\
      queue_of q w' = skipn n (queue_of q w) /\
      queue_of (other_queue q) w' = queue_of (other_queue q) w /\
      queues_ok w' /\
      (is_empty action \/ (queue_of q w <> [] /\ (0 < n)%nat) ->
       is_empty action').
Proof.
  induction n as [|n IH]; intros action w Hok.
  - exists action, w.
    split; [reflexivity|]. split; [reflexivity|]. split; [reflexivity|].
    split; [exact Hok|].
    intros [He|(_ & Hn)]; [exact He | lia].
  - destruct (worker_iter_step q period action w Hok)
      as (a1 & w1 & Hit & Hq1 & Ho1 & Hok1 & He1).
    destruct (IH a1 w1 Hok1) as (a2 & w2 & Hrun & Hq2 & Ho2 & Hok2 & He2).
    exists a2, w2. cbn [worker_run]. rewrite Hit.
    split; [exact Hrun|].
    split; [now rewrite Hq2, Hq1, skipn_tl|].
    split; [now rewrite Ho2, Ho1|].
    split; [exact Hok2|].
    intros H. apply He2. left. apply He1.
    destruct H as [He|(Hne & _)]; [now left | now right].
Qed.

End WorkerProperties.

(** X12.  The polling loop never moves its start sample forward while the
    clock does not wrap: each turn adds the whole time since the start, so
    after several turns the accumulator holds the sum of all the samples'
    distances to the start (as long as that sum fits 32 bits), which is at
    least the distance of any single sample. *)
Theorem account_accumulates (samples : list Z) :
  forall t : Timing,
    0 <= elapsed t ->
    Forall (fun now => startTime t <= now < 2 ^ 32) samples ->
    elapsed t + elapsed_sum (startTime t) samples < 2 ^ 32 ->
    let t' := fold_left account samples t in
    startTime t' = startTime t /\
    elapsed t' = elapsed t + elapsed_sum (startTime t) samples /\
    (forall now : Z, In now samples ->
                     now - startTime t <= elapsed t' - elapsed t).
Proof.
  induction samples as [|now samples IH]; intros t He Hall Hsum; cbv zeta.
  - cbn. split; [reflexivity|]. split; [lia|]. intros now [].
  - inversion Hall as [|? ? Hnow Hrest]; subst.
    pose proof (elapsed_sum_nonneg (startTime t) samples Hrest) as Hpos.
    change (elapsed_sum (startTime t) (now :: samples))
      with ((now - startTime t) + elapsed_sum (startTime t) samples) in *.
    assert (Hs : startTime (account t now) = startTime t).
    { unfold account; cbn [startTime].
      replace (now <? startTime t) with false
        by (symmetry; apply Z.ltb_ge; lia). reflexivity. }
    assert (Hel : elapsed (account t now) = elapsed t + (now - startTime t)).
    { unfold account; cbn [elapsed].
      replace (now <? startTime t) with false
        by (symmetry; apply Z.ltb_ge; lia).
      assert (Hw : wrap32 (now - startTime t) = now - startTime t)
        by (unfold wrap32; apply Z.mod_small; lia).
      rewrite Hw. unfold wrap32. apply Z.mod_small. lia. }
    cbn [fold_left].
    destruct (IH (account t now)) as (Hs' & Hel' & Hin').
    + rewrite Hel. lia.
    + now rewrite Hs.
    + rewrite Hs, Hel. lia.
    + cbv zeta in *. rewrite Hs in *. rewrite Hel in *.
      split; [exact Hs'|]. split; [rewrite Hel'; lia|].
      intros x [Hx|Hx].
      * subst x. rewrite Hel'. lia.
      * specialize (Hin' x Hx). lia.
Qed.

Lemma account_step (t : Timing) (now : Z) :
  0 <= elapsed t -> startTime t <= now < 2 ^ 32 ->
  elapsed t + (now - startTime t) < 2 ^ 32 ->
  startTime (account t now) = startTime t /\
  elapsed (account t now) = elapsed t + (now - startTime t).
Proof.
  intros He Hnow Hsum. unfold account; cbn [startTime elapsed].
  replace (now <? startTime t) with false by (symmetry; apply Z.ltb_ge; lia).
  split; [reflexivity|].
  assert (Hw : wrap32 (now - startTime t) = now - startTime t)
    by (unfold wrap32; apply Z.mod_small; lia).
  rewrite Hw. unfold wrap32. apply Z.mod_small. lia.
Qed.

Section PollingProperties.

Context {cfg : Config} {drv : NeoPixelRing}.

(** X13.  The polling loop goes on reading as long as the accumulated sum
    stays below [READ_SUBSCRIPTION_TIMEOUT]: on turns that bring no event of
    a recognised subscription, with samples that do not wrap, it consumes
    every input whose running sum of distances to the start is still below
    the timeout, and ends with that sum in its accumulator. *)
Theorem poll_loop_elapsed (inputs : list PollInput) :
  forall (t : Timing) (action : SubscriptionAction) (w : World),
    0 <= elapsed t ->
    READ_SUBSCRIPTION_TIMEOUT <= 2 ^ 32 ->
    Forall unrecognized_input inputs ->
    Forall (fun now => startTime t <= now < 2 ^ 32) (map millis_in inputs) ->
    elapsed t + elapsed_sum (startTime t) (map millis_in inputs)
    < READ_SUBSCRIPTION_TIMEOUT ->
    let t' := fst (fst (poll_loop inputs t action w)) in
    t' = fold_left account (map millis_in inputs) t /\
    startTime t' = startTime t /\
    elapsed t'
    = elapsed t + elapsed_sum (startTime t) (map millis_in inputs).
Proof.
  induction inputs as [|i rest IH];
    intros t action w He Hmax Hun Hall Hsum; cbv zeta.
  - cbn. repeat split. lia.
  - inversion Hun as [|? ? Hi Hrest]; subst.
    cbn [map] in Hall, Hsum |- *.
    inversion Hall as [|? ? Hnow Hall']; subst.
    pose proof (elapsed_sum_nonneg _ _ Hall') as Hpos.
    change (elapsed_sum (startTime t) (millis_in i :: map millis_in rest))
      with ((millis_in i - startTime t)
            + elapsed_sum (startTime t) (map millis_in rest)) in *.
    destruct (account_step t (millis_in i) He Hnow ltac:(lia)) as (Hs & Hel).
    assert (Hnext : forall a : SubscriptionAction,
               let t' := fst (fst (poll_loop rest (account t (millis_in i))
                                     a w)) in
               t' = fold_left account (map millis_in rest)
                      (account t (millis_in i)) /\
               startTime t' = startTime t /\
               elapsed t'
               = elapsed t
                 + ((millis_in i - startTime t)
                    + elapsed_sum (startTime t) (map millis_in rest))).
    { intros a. cbv zeta.
      destruct (IH (account t (millis_in i)) a w) as (E1 & E2 & E3).
      - rewrite Hel. lia.
      - exact Hmax.
      - exact Hrest.
      - now rewrite Hs.
      - rewrite Hs, Hel. lia.
      - cbv zeta in E1, E2, E3. rewrite Hs in E2, E3. rewrite Hel in E3.
        split; [exact E1|]. split; [exact E2|]. rewrite E3. lia. }
    cbn [poll_loop fold_left].
    replace (elapsed t <? READ_SUBSCRIPTION_TIMEOUT) with true
      by (symmetry; apply Z.ltb_lt; lia).
    unfold unrecognized_input in Hi.
    destruct (sub_in i) as [subscription|]; [|apply Hnext].
    unfold on_subscription.
    destruct (sub_id subscription); try discriminate Hi.
    apply Hnext.
Qed.

End PollingProperties.

(** ** The further theorems at concrete inputs *)

(** Witness of X10: the link comes up at the third attempt, then a command
    arrives. *)
Lemma processInputTask_invariant_witness :
  match
    processInputTask (cfg := sample_config)
      [{| start_millis := 1000;
          polls := [{| sub_in := Some {| sub_id := setColorSub;
                                         sub_obj := set_event |};
                       millis_in := 1200 |}] |}]
      zero_action (sample_world true fail_twice)
  with
  | Returned (action', w') =>
      queues_ok (cfg := sample_config) w' /\
      wf_action (cfg := sample_config) action' /\
      same_device (sample_world true fail_twice) w'
  | Halted w' =>
      queues_ok (cfg := sample_config) w' /\
      same_device (sample_world true fail_twice) w'
  | OutOfFuel => False
  end.
Proof.
  exact (processInputTask_invariant (cfg := sample_config)
           (drv := sample_ring)
           [{| start_millis := 1000;
               polls := [{| sub_in := Some {| sub_id := setColorSub;
                                              sub_obj := set_event |};
                            millis_in := 1200 |}] |}]
           zero_action (sample_world true fail_twice)
           ltac:(repeat split; try constructor; cbn; lia)
           eq_refl).
Defined.

(** Witness of X11: two turns of the slow worker on a queue of two. *)
Lemma worker_run_drains_witness :
  let bad := setAction (cfg := sample_config) zero_action (Some bad_event) in
  let good := setAction (cfg := sample_config) zero_action (Some set_event) in
  let w := set_queue longActionsQueue [bad; good]
             (sample_world true always_fail) in
  exists (action' : SubscriptionAction) (w' : SampleWorld),
    worker_run (cfg := sample_config) (json := sample_json)
      longActionsQueue 50 2 zero_action w = Some (action', w') /\
    longQ w' = [] /\
    is_empty action'.
Proof.
  cbv zeta.
  destruct (worker_run_drains (cfg := sample_config) (drv := sample_ring)
              (json := sample_json) longActionsQueue 50 2 zero_action
              (set_queue longActionsQueue
                 [setAction (cfg := sample_config) zero_action
                    (Some bad_event);
                  setAction (cfg := sample_config) zero_action
                    (Some set_event)]
                 (sample_world true always_fail))
              ltac:(repeat split; repeat constructor;
                    try discriminate; reflexivity))
    as (a' & w' & Hrun & Hq & _ & _ & He).
  exists a', w'. split; [exact Hrun|]. split; [exact Hq|].
  apply He. right. split; [discriminate | repeat constructor].
Defined.

(** Witness of X12: samples 1100, 1200, 1300 after a start at 1000 leave
    600 in the accumulator, though only 300 ms have passed. *)
Lemma account_accumulates_witness :
  let t := {| startTime := 1000; endTime := 0; elapsed := 0 |} in
  elapsed (fold_left account [1100; 1200; 1300] t) = 600.
Proof.
  cbv zeta.
  destruct (account_accumulates [1100; 1200; 1300]
              {| startTime := 1000; endTime := 0; elapsed := 0 |}
              ltac:(cbn; lia)
              ltac:(repeat constructor; cbn; lia)
              ltac:(cbn; lia))
    as (_ & Hel & _).
  exact Hel.
Defined.

(** Witness of X13: three null reads at 1100, 1200 and 1300. *)
Lemma poll_loop_elapsed_witness :
  let t := {| startTime := 1000; endTime := 0; elapsed := 0 |} in
  let inputs := [{| sub_in := None; millis_in := 1100 |};
                 {| sub_in := None; millis_in := 1200 |};
                 {| sub_in := None; millis_in := 1300 |}] in
  elapsed (fst (fst (poll_loop (cfg := sample_config) inputs t zero_action
                       (sample_world true always_fail))))
  = 600.
Proof.
  cbv zeta.
  destruct (poll_loop_elapsed (cfg := sample_config) (drv := sample_ring)
              [{| sub_in := None; millis_in := 1100 |};
               {| sub_in := None; millis_in := 1200 |};
               {| sub_in := None; millis_in := 1300 |}]
              {| startTime := 1000; endTime := 0; elapsed := 0 |}
              zero_action (sample_world true always_fail)
              ltac:(cbn; lia)
              ltac:(cbn; lia)
              ltac:(repeat constructor)
              ltac:(repeat constructor; cbn; lia)
              ltac:(cbn; lia))
    as (_ & _ & Hel).
  exact Hel.
Defined.

(** ** From the event to the ring *)

Section Pipeline.

Context {cfg : Config} {drv : NeoPixelRing} {json : ArduinoJson}.


End Pipeline.

